(** * Smart-farm telemetry node ([research/iot.py]): model and verification

    A shallow embedding of the five-stage cycle of [research/iot.py]
    (perception, transport, edge analysis, actuation, reporting and storage).

    - Python [float] is IEEE-754 binary64: it is modelled by Rocq's primitive
      [float], whose operations are the same binary64 operations.
    - The module globals [actuators], [history] and [local_db] are threaded
      explicitly through the functions that touch them.
    - [random.random()] and [datetime.now()] read the outside world: they are
      modelled as streams the program consumes in order.
    - A raised exception is a value of [result]; the state reached when it is
      raised is returned with it, as nothing in Python rolls a mutation back.
    - Each [print] is one constructor of [line], carrying the values it
      interpolates. *)

From Stdlib Require Import ZArith List String Bool Lia PeanoNat.
From Stdlib Require Import Floats.
Import ListNotations.

Set Warnings "-inexact-float".

Local Open Scope string_scope.
Local Open Scope list_scope.
Local Open Scope Z_scope.

(** ** Enums and constants *)

Inductive SensorType :=
  | TEMPERATURE | SOIL_MOISTURE | LIGHT_INTENSITY | CO2_LEVEL | HUMIDITY.

Inductive ActuatorType :=
  | IRRIGATION | COOLING | VENTILATION | FERTILIZER_DOSER.

(** [Enum.name]. *)
Definition sensor_name (s : SensorType) : string :=
  match s with
  | TEMPERATURE => "TEMPERATURE"
  | SOIL_MOISTURE => "SOIL_MOISTURE"
  | LIGHT_INTENSITY => "LIGHT_INTENSITY"
  | CO2_LEVEL => "CO2_LEVEL"
  | HUMIDITY => "HUMIDITY"
  end.

Definition actuator_name (a : ActuatorType) : string :=
  match a with
  | IRRIGATION => "IRRIGATION"
  | COOLING => "COOLING"
  | VENTILATION => "VENTILATION"
  | FERTILIZER_DOSER => "FERTILIZER_DOSER"
  end.

Definition ActuatorType_eqb (a b : ActuatorType) : bool :=
  match a, b with
  | IRRIGATION, IRRIGATION | COOLING, COOLING
  | VENTILATION, VENTILATION | FERTILIZER_DOSER, FERTILIZER_DOSER => true
  | _, _ => false
  end.

(** Iteration order of [for actuator in ActuatorType]. *)
Definition all_actuators : list ActuatorType :=
  [IRRIGATION; COOLING; VENTILATION; FERTILIZER_DOSER].

(** One entry of [SENSORS]: the bounds are Python [int]s. *)
Record params := { p_min : Z; p_max : Z; p_unit : string }.

(** [SENSORS], in the insertion order that [SENSORS.items()] follows. *)
Definition SENSORS : list (SensorType * params) :=
  [ (TEMPERATURE,     {| p_min := 20;  p_max := 30;   p_unit := "°C" |});
    (SOIL_MOISTURE,   {| p_min := 30;  p_max := 70;   p_unit := "%" |});
    (LIGHT_INTENSITY, {| p_min := 0;   p_max := 100;  p_unit := "lux" |});
    (CO2_LEVEL,       {| p_min := 300; p_max := 1000; p_unit := "ppm" |});
    (HUMIDITY,        {| p_min := 40;  p_max := 80;   p_unit := "%" |}) ].

Definition cloud_sync_interval : Z := 5.

(** ** Python numbers *)

(** [float(n)] for a Python [int]: the nearest binary64 value, ties to even
    (exact below [2^53]; where Python raises [OverflowError] this gives an
    infinity, which no integer of this program reaches). *)
Definition float_of_int (n : Z) : float :=
  SF2Prim (binary_normalize prec emax n 0 false).

(** The integer nearest to [a / b], ties to even, for [0 < b]. *)
Definition rne_div (a b : Z) : Z :=
  let q := a / b in
  match 2 * (a mod b) ?= b with
  | Lt => q
  | Gt => q + 1
  | Eq => if Z.even q then q else q + 1
  end.

(** The number of tenths nearest to [m * 2^e], ties to even: the decimal
    digits that [round(x, 1)] asks the float-to-decimal conversion for. *)
Definition tenths (m : positive) (e : Z) : Z :=
  rne_div (10 * Z.pos m * 2 ^ Z.max e 0) (2 ^ Z.max (- e) 0).

(** [round(x, 1)] on binary64, on the specification side.  CPython rounds
    the exact value of [x] to one decimal correctly (ties to even) and
    converts that decimal back to the nearest float (ties to even), keeping
    the sign; a zero, an infinity or a NaN is returned as it is. *)
Definition SF64round1 (x : spec_float) : spec_float :=
  match x with
  | S754_finite s m e =>
      match tenths m e with
      | Z.pos n => SF64div (S754_finite s n 0) (S754_finite false 10 0)
      | _ => S754_zero s
      end
  | _ => x
  end.

(** [round(x, 1)]. *)
Definition round1 (x : float) : float := SF2Prim (SF64round1 (Prim2SF x)).

(** ** The outside world: randomness and the clock *)

(** The future results of [random.random()], in the order of the calls. *)
Definition rng := nat -> float.

Definition random (g : rng) : float * rng := (g O, fun n => g (S n)).

(** [random.uniform(a, b)] for [int] bounds: [a + (b - a) * self.random()]. *)
Definition uniform (a b : Z) (g : rng) : float * rng :=
  let (u, g') := random g in
  ((float_of_int a + float_of_int (b - a) * u)%float, g').

(** Every [random.random()] lies in [[0.0, 1.0)]. *)
Definition rng_ok (g : rng) : Prop :=
  forall n, (0 <=? g n)%float = true /\ (g n <? 1)%float = true.

(** [datetime.now().isoformat()]: the text of an instant. *)
Definition instant := string.

(** The future results of [datetime.now()]. *)
Definition clock := nat -> instant.

Definition now (c : clock) : instant * clock := (c O, fun n => c (S n)).

(** ** Data *)

(** The dict a reading is: keys [sensor_type], [value], [unit], [timestamp]. *)
Record reading := {
  r_sensor_type : string;
  r_value : float;
  r_unit : string;
  r_timestamp : instant
}.

Record metrics := { dew_point : float; heat_index : float }.

Record predictions := {
  crop_stress_risk : float;
  irrigation_needed : bool;
  optimal_watering : string
}.

(** The dict [analyze_data] returns. *)
Record processed := {
  raw_data : list reading;
  p_metrics : metrics;
  p_predictions : predictions
}.

Inductive exn := StopIteration.

Inductive result (A : Type) :=
  | Ok (a : A)
  | Raise (e : exn).
Arguments Ok {A} a.
Arguments Raise {A} e.

(** The global dict [actuators], in insertion order. *)
Definition actuator_state := list (ActuatorType * bool).

(** [actuators = {actuator: False for actuator in ActuatorType}]. *)
Definition actuators_init : actuator_state :=
  map (fun a => (a, false)) all_actuators.

(** [d[k]]; [None] is [KeyError]. *)
Fixpoint dict_get (k : ActuatorType) (d : actuator_state) : option bool :=
  match d with
  | [] => None
  | (k', v) :: d' => if ActuatorType_eqb k k' then Some v else dict_get k d'
  end.

(** [d[k] = v]: the value of an existing key is replaced where it stands, a
    new key is added at the end. *)
Fixpoint dict_set (k : ActuatorType) (v : bool) (d : actuator_state)
  : actuator_state :=
  match d with
  | [] => [(k, v)]
  | (k', v') :: d' =>
      if ActuatorType_eqb k k' then (k', v) :: d'
      else (k', v') :: dict_set k v d'
  end.

(** What the program prints, one constructor per [print]. *)
Inductive line :=
  | CycleRule
  | CycleAt (t : instant)
  | SensorData (l : list (string * float * string))
  | LoRaWANSent (payload : list reading)
  | EdgeAIOutput (p : predictions)
  | Actuators (l : list (string * string))
  | BusinessReportHeader
  | TotalDataPoints (n : Z)
  | RecentStressLevels (l : list float)
  | RecommendedActions (s : string)
  | CloudSyncUploaded (n : Z).

(** ** Core functions *)

(** The list comprehension of [read_sensors], one draw per catalog entry. *)
Fixpoint read_entries (timestamp : instant) (l : list (SensorType * params))
  (g : rng) : list reading * rng :=
  match l with
  | [] => ([], g)
  | (sensor, prm) :: l' =>
      let (v, g1) := uniform (p_min prm) (p_max prm) g in
      let d := {| r_sensor_type := sensor_name sensor;
                  r_value := round1 v;
                  r_unit := p_unit prm;
                  r_timestamp := timestamp |} in
      let (ds, g2) := read_entries timestamp l' g1 in
      (d :: ds, g2)
  end.

(** Layer 1: perception. *)
Definition read_sensors (c : clock) (g : rng) : list reading * clock * rng :=
  let (timestamp, c') := now c in
  let (ds, g') := read_entries timestamp SENSORS g in
  (ds, c', g').

(** [next(d["value"] for d in data if d["sensor_type"] == name)]. *)
Definition next_value (name : string) (data : list reading) : result float :=
  match find (fun d => String.eqb (r_sensor_type d) name) data with
  | Some d => Ok (r_value d)
  | None => Raise StopIteration
  end.

(** Layer 3: processing.  The three lookups come first; the random draw is
    made only when none of them raised. *)
Definition analyze_data (data : list reading) (g : rng)
  : result (processed * rng) :=
  match next_value (sensor_name TEMPERATURE) data with
  | Raise e => Raise e
  | Ok temp =>
  match next_value (sensor_name HUMIDITY) data with
  | Raise e => Raise e
  | Ok humidity =>
  match next_value (sensor_name SOIL_MOISTURE) data with
  | Raise e => Raise e
  | Ok moisture =>
      let dew := round1 (temp - ((100 - humidity) / 5))%float in
      let heat := round1 (temp + humidity * 0.1)%float in
      let (crop_stress, g') := uniform 0 1 g in
      Ok ({| raw_data := data;
             p_metrics := {| dew_point := dew; heat_index := heat |};
             p_predictions :=
               {| crop_stress_risk := crop_stress;
                  irrigation_needed := (0.7 <? crop_stress)%float;
                  optimal_watering :=
                    if (0.7 <? crop_stress)%float then "ASAP" else "6h" |} |},
          g')
  end end end.

(** The line [control_actuators] prints. *)
Definition actuators_line (st : actuator_state) : line :=
  Actuators
    (map (fun '(a, s) => (actuator_name a, if s : bool then "ON" else "OFF")) st).

(** Layer 4: application.  The rules run in order on the global dict; the
    CO2 lookup of the fourth can raise, after the first three have run. *)
Definition control_actuators (processed_data : processed)
  (actuators : actuator_state) : actuator_state * result (list line) :=
  let a1 :=
    if irrigation_needed (p_predictions processed_data)
    then dict_set IRRIGATION true actuators else actuators in
  let a2 :=
    if (30 <? heat_index (p_metrics processed_data))%float
    then dict_set COOLING true a1 else a1 in
  let a3 :=
    if (25 <? dew_point (p_metrics processed_data))%float
    then dict_set VENTILATION true a2 else a2 in
  match next_value (sensor_name CO2_LEVEL) (raw_data processed_data) with
  | Raise e => (a3, Raise e)
  | Ok co2 =>
      let a4 :=
        if (co2 <? 400)%float
        then dict_set FERTILIZER_DOSER true a3 else a3 in
      (a4, Ok [actuators_line a4])
  end.

(** [l[-3:]]. *)
Definition last3 {A : Type} (l : list A) : list A :=
  skipn (List.length l - 3)%nat l.

(** Layer 5: business intelligence. *)
Definition business_report (processed_data : processed)
  (history : list processed) : list processed * list line :=
  let history' := history ++ [processed_data] in
  if Z.of_nat (List.length history') mod 5 =? 0 then
    (history',
     [ BusinessReportHeader;
       TotalDataPoints (Z.of_nat (List.length history'));
       RecentStressLevels
         (map (fun d => crop_stress_risk (p_predictions d)) (last3 history'));
       RecommendedActions "Check irrigation valves" ])
  else (history', []).

(** Storage. *)
Definition cloud_sync (data : processed) (local_db : list processed)
  : list processed * list line :=
  let local_db' := local_db ++ [data] in
  if Z.of_nat (List.length local_db') mod cloud_sync_interval =? 0 then
    (local_db', [CloudSyncUploaded cloud_sync_interval])
  else (local_db', []).

(** ** The main loop *)

(** The globals, the outside world, and what was published and printed. *)
Record world := {
  w_actuators : actuator_state;
  w_history : list processed;
  w_local_db : list processed;
  w_rng : rng;
  w_clock : clock;
  w_published : list (string * list reading);
  w_stdout : list line
}.

Definition world_init (g : rng) (c : clock) : world :=
  {| w_actuators := actuators_init; w_history := []; w_local_db := [];
     w_rng := g; w_clock := c; w_published := []; w_stdout := [] |}.

Definition print (ls : list line) (w : world) : world :=
  {| w_actuators := w_actuators w; w_history := w_history w;
     w_local_db := w_local_db w; w_rng := w_rng w; w_clock := w_clock w;
     w_published := w_published w; w_stdout := w_stdout w ++ ls |}.

Definition set_actuators (a : actuator_state) (w : world) : world :=
  {| w_actuators := a; w_history := w_history w;
     w_local_db := w_local_db w; w_rng := w_rng w; w_clock := w_clock w;
     w_published := w_published w; w_stdout := w_stdout w |}.

Definition set_history (h : list processed) (w : world) : world :=
  {| w_actuators := w_actuators w; w_history := h;
     w_local_db := w_local_db w; w_rng := w_rng w; w_clock := w_clock w;
     w_published := w_published w; w_stdout := w_stdout w |}.

Definition set_local_db (db : list processed) (w : world) : world :=
  {| w_actuators := w_actuators w; w_history := w_history w;
     w_local_db := db; w_rng := w_rng w; w_clock := w_clock w;
     w_published := w_published w; w_stdout := w_stdout w |}.

Definition set_rng (g : rng) (w : world) : world :=
  {| w_actuators := w_actuators w; w_history := w_history w;
     w_local_db := w_local_db w; w_rng := g; w_clock := w_clock w;
     w_published := w_published w; w_stdout := w_stdout w |}.

Definition set_clock (c : clock) (w : world) : world :=
  {| w_actuators := w_actuators w; w_history := w_history w;
     w_local_db := w_local_db w; w_rng := w_rng w; w_clock := c;
     w_published := w_published w; w_stdout := w_stdout w |}.

(** Layer 2: transport.  The JSON text and the broker are outside the model:
    what is published is recorded as the batch itself. *)
Definition send_mqtt (data : list reading) (w : world) : world :=
  print [LoRaWANSent data]
    {| w_actuators := w_actuators w; w_history := w_history w;
       w_local_db := w_local_db w; w_rng := w_rng w; w_clock := w_clock w;
       w_published := w_published w ++ [("iot/agriculture/data", data)];
       w_stdout := w_stdout w |}.

(** Steps 2 to 6 of the loop body, on the batch step 1 produced.  An
    exception leaves the loop: the stages after it do not run. *)
Definition stages (sensor_data : list reading) (w : world)
  : world * result unit :=
  let w2 := send_mqtt sensor_data w in
  match analyze_data sensor_data (w_rng w2) with
  | Raise e => (w2, Raise e)
  | Ok (processed_data, g') =>
      let w3 := print [EdgeAIOutput (p_predictions processed_data)]
                  (set_rng g' w2) in
      match control_actuators processed_data (w_actuators w3) with
      | (a, Raise e) => (set_actuators a w3, Raise e)
      | (a, Ok out4) =>
          let w4 := print out4 (set_actuators a w3) in
          let (h, out5) := business_report processed_data (w_history w4) in
          let w5 := print out5 (set_history h w4) in
          let (db, out6) := cloud_sync processed_data (w_local_db w5) in
          (print out6 (set_local_db db w5), Ok tt)
      end
  end.

(** One pass of the [while True] body ([time.sleep] changes nothing here). *)
Definition cycle (w : world) : world * result unit :=
  let (t, c1) := now (w_clock w) in
  let w0 := print [CycleRule; CycleAt t] (set_clock c1 w) in
  let '(sensor_data, c2, g1) := read_sensors (w_clock w0) (w_rng w0) in
  let w1 :=
    print [SensorData (map (fun d => (r_sensor_type d, r_value d, r_unit d))
                         sensor_data)]
      (set_rng g1 (set_clock c2 w0)) in
  stages sensor_data w1.

(** The loop, for at most [n] passes: it stops at the first exception. *)
Fixpoint run (n : nat) (w : world) : world * result unit :=
  match n with
  | O => (w, Ok tt)
  | S n' =>
      match cycle w with
      | (w', Ok _) => run n' w'
      | (w', Raise e) => (w', Raise e)
      end
  end.

(** ** Vocabulary of the statements *)

(** [data] has a reading of kind [k]. *)
Definition has_reading (k : SensorType) (data : list reading) : bool :=
  existsb (fun d => String.eqb (r_sensor_type d) (sensor_name k)) data.

(** The readings of kind [k] in [data]. *)
Definition readings_of (k : SensorType) (data : list reading) : list reading :=
  filter (fun d => String.eqb (r_sensor_type d) (sensor_name k)) data.

(** [data] has exactly one reading of kind [k], and its value is [v]. *)
Definition one_reading (k : SensorType) (v : float) (data : list reading)
  : Prop :=
  exists d, readings_of k data = [d] /\ r_value d = v.

(** [control_actuators] applied to each result in turn, as the cycles do;
    an exception does not undo what the call did before it. *)
Definition control_all (pds : list processed) (st : actuator_state)
  : actuator_state :=
  fold_left (fun a pd => fst (control_actuators pd a)) pds st.

(** [business_report] called on each result in turn: the final history and
    what each call printed. *)
Fixpoint business_reports (pds : list processed) (history : list processed)
  : list processed * list (list line) :=
  match pds with
  | [] => (history, [])
  | pd :: pds' =>
      let (h, out) := business_report pd history in
      let (h', outs) := business_reports pds' h in
      (h', out :: outs)
  end.

(** [cloud_sync] called on each result in turn. *)
Fixpoint cloud_syncs (pds : list processed) (local_db : list processed)
  : list processed * list (list line) :=
  match pds with
  | [] => (local_db, [])
  | pd :: pds' =>
      let (db, out) := cloud_sync pd local_db in
      let (db', outs) := cloud_syncs pds' db in
      (db', out :: outs)
  end.

(** Sample data for the concrete instances. *)
Definition mk_reading (k : SensorType) (v : float) : reading :=
  {| r_sensor_type := sensor_name k; r_value := v; r_unit := "";
     r_timestamp := "2024-01-01T00:00:00" |}.

Definition const_rng (u : float) : rng := fun _ => u.

(** An analysis result with the given batch, metrics and stress draw. *)
Definition mk_processed (data : list reading) (dew heat stress : float)
  : processed :=
  {| raw_data := data;
     p_metrics := {| dew_point := dew; heat_index := heat |};
     p_predictions :=
       {| crop_stress_risk := stress;
          irrigation_needed := (0.7 <? stress)%float;
          optimal_watering := if (0.7 <? stress)%float then "ASAP" else "6h" |} |}.

(** ** Vocabulary of the further properties *)

(** The rule of actuator [k] fires on the result [pd]: the condition of its
    [if] in [control_actuators] holds (for the fourth, the CO2 lookup also
    has to find a reading). *)
Definition fires (k : ActuatorType) (pd : processed) : bool :=
  match k with
  | IRRIGATION => irrigation_needed (p_predictions pd)
  | COOLING => (30 <? heat_index (p_metrics pd))%float
  | VENTILATION => (25 <? dew_point (p_metrics pd))%float
  | FERTILIZER_DOSER =>
      match next_value (sensor_name CO2_LEVEL) (raw_data pd) with
      | Ok co2 => (co2 <? 400)%float
      | Raise _ => false
      end
  end.

(** [v] lies between the bounds of the catalog entry [prm]. *)
Definition in_range (prm : params) (v : float) : bool :=
  ((float_of_int (p_min prm) <=? v) && (v <=? float_of_int (p_max prm)))%float.

(** A batch as the catalog describes it: one reading per entry, in order,
    with the entry's name and unit and a value within its bounds. *)
Definition batch_ok (batch : list reading) : Prop :=
  Forall2 (fun (e : SensorType * params) d =>
             r_sensor_type d = sensor_name (fst e) /\
             r_unit d = p_unit (snd e) /\
             in_range (snd e) (r_value d) = true)
    SENSORS batch.

(** The stream [g] after [k] draws. *)
Definition drop_draws {A : Type} (k : nat) (g : nat -> A) : nat -> A :=
  fun n => g (k + n)%nat.

(** The line a successful [control_actuators] prints for the catalog's four
    actuators. *)
Definition on_off (st : actuator_state) (k : ActuatorType) : string * string :=
  (actuator_name k,
   match dict_get k st with Some true => "ON" | _ => "OFF" end).

(** ** Vocabulary of the binary64 proofs *)

(** The shifted-out bits of a [shr_record] are all zero. *)
Definition shr_exact (r : shr_record) : bool := negb (shr_r r) && negb (shr_s r).

(** [x] is a zero or a positive number whose value lies in [[A, B]]. *)
Definition SFin (A B : Z) (x : spec_float) : Prop :=
  match x with
  | S754_zero _ => A <= 0 <= B
  | S754_finite false m e =>
      e <= 0 /\ A * 2 ^ (- e) <= Z.pos m <= B * 2 ^ (- e)
  | _ => False
  end.

(** [x] is a zero or a positive number below one. *)
Definition SFunit (x : spec_float) : Prop :=
  match x with
  | S754_zero _ => True
  | S754_finite false m e => e <= 0 /\ Z.pos m < 2 ^ (- e)
  | _ => False
  end.

(** * Verification *)

(** ** Lookups *)

Lemma next_value_has (k : SensorType) (data : list reading) :
  has_reading k data = true -> exists v, next_value (sensor_name k) data = Ok v.
Proof.
  unfold has_reading, next_value.
  induction data as [|d data IH]; simpl; [discriminate|].
  destruct (String.eqb (r_sensor_type d) (sensor_name k)); eauto.
Qed.

Lemma next_value_has_not (k : SensorType) (data : list reading) :
  has_reading k data = false ->
  next_value (sensor_name k) data = Raise StopIteration.
Proof.
  unfold has_reading, next_value.
  induction data as [|d data IH]; simpl; [reflexivity|].
  destruct (String.eqb (r_sensor_type d) (sensor_name k)); simpl;
    [discriminate | exact IH].
Qed.

Lemma next_value_Ok_has (k : SensorType) (data : list reading) (v : float) :
  next_value (sensor_name k) data = Ok v -> has_reading k data = true.
Proof.
  intros H. destruct (has_reading k data) eqn:E; [reflexivity|].
  rewrite (next_value_has_not _ _ E) in H. discriminate.
Qed.

(** The lookup returns the value of the first reading of the kind. *)
Lemma next_value_readings_of (k : SensorType) (data : list reading) :
  next_value (sensor_name k) data =
  match readings_of k data with
  | d :: _ => Ok (r_value d)
  | [] => Raise StopIteration
  end.
Proof.
  unfold next_value, readings_of.
  induction data as [|d data IH]; simpl; [reflexivity|].
  destruct (String.eqb (r_sensor_type d) (sensor_name k)); [reflexivity|].
  exact IH.
Qed.

Lemma next_value_one (k : SensorType) (v : float) (data : list reading) :
  one_reading k v data -> next_value (sensor_name k) data = Ok v.
Proof.
  intros [d [Hd Hv]]. rewrite next_value_readings_of, Hd, Hv. reflexivity.
Qed.

(** ** The actuator dict *)

Lemma ActuatorType_eqb_eq (a b : ActuatorType) :
  ActuatorType_eqb a b = true <-> a = b.
Proof. destruct a, b; simpl; split; congruence. Qed.

Lemma ActuatorType_eqb_refl (a : ActuatorType) : ActuatorType_eqb a a = true.
Proof. destruct a; reflexivity. Qed.

Lemma dict_get_set_same (k : ActuatorType) (v : bool) (d : actuator_state) :
  dict_get k (dict_set k v d) = Some v.
Proof.
  induction d as [|[k' v'] d IH]; simpl.
  - rewrite ActuatorType_eqb_refl. reflexivity.
  - destruct (ActuatorType_eqb k k') eqn:E; simpl; rewrite E; auto.
Qed.

Lemma dict_get_set_other (k k' : ActuatorType) (v : bool) (d : actuator_state) :
  k <> k' -> dict_get k' (dict_set k v d) = dict_get k' d.
Proof.
  intros Hk. induction d as [|[k0 v0] d IH]; simpl.
  - destruct (ActuatorType_eqb k' k) eqn:E; [|reflexivity].
    apply ActuatorType_eqb_eq in E. congruence.
  - destruct (ActuatorType_eqb k k0) eqn:E; simpl.
    + apply ActuatorType_eqb_eq in E. subst k0.
      destruct (ActuatorType_eqb k' k) eqn:E'; [|reflexivity].
      apply ActuatorType_eqb_eq in E'. congruence.
    + rewrite IH. reflexivity.
Qed.

Lemma dict_set_idem (k : ActuatorType) (v : bool) (d : actuator_state) :
  dict_set k v (dict_set k v d) = dict_set k v d.
Proof.
  induction d as [|[k' v'] d IH]; simpl.
  - rewrite ActuatorType_eqb_refl. reflexivity.
  - destruct (ActuatorType_eqb k k') eqn:E; simpl; rewrite E;
      [reflexivity | rewrite IH; reflexivity].
Qed.

(** Writing the value a key already has changes nothing. *)
Lemma dict_set_same_value (k : ActuatorType) (v : bool) (d : actuator_state) :
  dict_get k d = Some v -> dict_set k v d = d.
Proof.
  induction d as [|[k' v'] d IH]; simpl; [discriminate|].
  destruct (ActuatorType_eqb k k') eqn:E.
  - intros [= ->]. reflexivity.
  - intros H. rewrite (IH H). reflexivity.
Qed.

(** Writing [True] keeps every actuator that was on. *)
Lemma dict_set_true_keeps (k k' : ActuatorType) (d : actuator_state) :
  dict_get k' d = Some true -> dict_get k' (dict_set k true d) = Some true.
Proof.
  intros H. destruct (ActuatorType_eqb k k') eqn:E.
  - apply ActuatorType_eqb_eq in E. subst. apply dict_get_set_same.
  - rewrite dict_get_set_other; [exact H|].
    intros ->. rewrite ActuatorType_eqb_refl in E. discriminate.
Qed.

(** A rule: the write of [True] to [k] when [c] holds. *)
Lemma rule_get (c : bool) (k k' : ActuatorType) (d : actuator_state) :
  dict_get k' (if c then dict_set k true d else d) =
  if c && ActuatorType_eqb k k' then Some true else dict_get k' d.
Proof.
  destruct c; simpl; [|reflexivity].
  destruct (ActuatorType_eqb k k') eqn:E.
  - apply ActuatorType_eqb_eq in E. subst. apply dict_get_set_same.
  - apply dict_get_set_other. intros ->.
    rewrite ActuatorType_eqb_refl in E. discriminate.
Qed.

(** The state [control_actuators] leaves, exception or not. *)
Lemma control_actuators_state (pd : processed) (st : actuator_state) :
  fst (control_actuators pd st) =
  let a1 := if irrigation_needed (p_predictions pd)
            then dict_set IRRIGATION true st else st in
  let a2 := if (30 <? heat_index (p_metrics pd))%float
            then dict_set COOLING true a1 else a1 in
  let a3 := if (25 <? dew_point (p_metrics pd))%float
            then dict_set VENTILATION true a2 else a2 in
  match next_value (sensor_name CO2_LEVEL) (raw_data pd) with
  | Ok co2 => if (co2 <? 400)%float
              then dict_set FERTILIZER_DOSER true a3 else a3
  | Raise _ => a3
  end.
Proof.
  unfold control_actuators.
  destruct (next_value (sensor_name CO2_LEVEL) (raw_data pd)); reflexivity.
Qed.

(** ** Edge analysis *)

(** [analyze_data] returns exactly when the three kinds it looks up are there. *)
Lemma analyze_data_Ok (data : list reading) (g : rng) (t h m : float) :
  next_value (sensor_name TEMPERATURE) data = Ok t ->
  next_value (sensor_name HUMIDITY) data = Ok h ->
  next_value (sensor_name SOIL_MOISTURE) data = Ok m ->
  analyze_data data g =
  Ok ({| raw_data := data;
         p_metrics :=
           {| dew_point := round1 (t - ((100 - h) / 5))%float;
              heat_index := round1 (t + h * 0.1)%float |};
         p_predictions :=
           {| crop_stress_risk := fst (uniform 0 1 g);
              irrigation_needed := (0.7 <? fst (uniform 0 1 g))%float;
              optimal_watering :=
                if (0.7 <? fst (uniform 0 1 g))%float then "ASAP" else "6h" |} |},
      snd (uniform 0 1 g)).
Proof.
  intros Ht Hh Hm. unfold analyze_data. rewrite Ht, Hh, Hm. reflexivity.
Qed.

Lemma analyze_data_inv (data : list reading) (g : rng) (pd : processed)
  (g' : rng) :
  analyze_data data g = Ok (pd, g') ->
  exists t h m,
    next_value (sensor_name TEMPERATURE) data = Ok t /\
    next_value (sensor_name HUMIDITY) data = Ok h /\
    next_value (sensor_name SOIL_MOISTURE) data = Ok m.
Proof.
  unfold analyze_data.
  destruct (next_value (sensor_name TEMPERATURE) data) as [t|]; [|discriminate].
  destruct (next_value (sensor_name HUMIDITY) data) as [h|]; [|discriminate].
  destruct (next_value (sensor_name SOIL_MOISTURE) data) as [m|];
    [|discriminate].
  intros _. exists t, h, m. auto.
Qed.

(** C1, as stated, fails: a batch with exactly one Temperature reading (25.0)
    and one Humidity reading (60.0) and nothing else meets the claim's
    premise, and [analyze_data] raises [StopIteration] on it instead of
    returning metrics, because the Soil-moisture lookup comes before the
    formulas. *)
Lemma analyze_data_without_soil_moisture :
  one_reading TEMPERATURE 25
    [mk_reading TEMPERATURE 25; mk_reading HUMIDITY 60] /\
  one_reading HUMIDITY 60
    [mk_reading TEMPERATURE 25; mk_reading HUMIDITY 60] /\
  analyze_data [mk_reading TEMPERATURE 25; mk_reading HUMIDITY 60]
    (const_rng 0.5) = Raise StopIteration.
Proof.
  split; [|split].
  - exists (mk_reading TEMPERATURE 25). split; reflexivity.
  - exists (mk_reading HUMIDITY 60). split; reflexivity.
  - reflexivity.
Qed.

(** C1, amended: for every batch with exactly one Temperature reading, of
    value [t], one Humidity reading, of value [h], and a SoilMoisture
    reading, [analyze_data] returns metrics with
    [dew_point = round(t - (100 - h) / 5, 1)] and
    [heat_index = round(t + h * 0.1, 1)], whatever the rest of the batch and
    the random draw are (so the two metrics depend on [(t, h)] only); for
    [t = 25.0] and [h = 60.0] they are [17.0] and [31.0]. *)
Theorem analyze_data_metrics (data : list reading) (t h : float) (g : rng) :
  one_reading TEMPERATURE t data ->
  one_reading HUMIDITY h data ->
  has_reading SOIL_MOISTURE data = true ->
  exists pd g',
    analyze_data data g = Ok (pd, g') /\
    dew_point (p_metrics pd) = round1 (t - ((100 - h) / 5))%float /\
    heat_index (p_metrics pd) = round1 (t + h * 0.1)%float /\
    (t = 25%float -> h = 60%float ->
     dew_point (p_metrics pd) = 17%float /\
     heat_index (p_metrics pd) = 31%float).
Proof.
  intros Ht Hh Hm.
  apply next_value_one in Ht. apply next_value_one in Hh.
  destruct (next_value_has _ _ Hm) as [m Hm'].
  eexists. eexists. split; [apply (analyze_data_Ok data g t h m Ht Hh Hm')|].
  simpl. split; [reflexivity|]. split; [reflexivity|].
  intros -> ->. split; reflexivity.
Qed.

Lemma analyze_data_metrics_witness :
  exists pd g',
    analyze_data
      [mk_reading SOIL_MOISTURE 50; mk_reading HUMIDITY 60;
       mk_reading CO2_LEVEL 350; mk_reading TEMPERATURE 25]
      (const_rng 0.5) = Ok (pd, g') /\
    dew_point (p_metrics pd) = 17%float /\
    heat_index (p_metrics pd) = 31%float.
Proof.
  destruct (analyze_data_metrics
              [mk_reading SOIL_MOISTURE 50; mk_reading HUMIDITY 60;
               mk_reading CO2_LEVEL 350; mk_reading TEMPERATURE 25]
              25 60 (const_rng 0.5))
    as [pd [g' [H [_ [_ H2]]]]].
  - exists (mk_reading TEMPERATURE 25). split; reflexivity.
  - exists (mk_reading HUMIDITY 60). split; reflexivity.
  - reflexivity.
  - exists pd, g'. split; [exact H|]. apply H2; reflexivity.
Defined.

(** C2: whenever [analyze_data] returns, with [s] the crop-stress draw
    [random.uniform(0, 1)], [irrigation_needed] is [s > 0.7] and
    [optimal_watering] is ["ASAP"] when [s > 0.7] and ["6h"] (Within6h)
    otherwise; at [s = 0.7] exactly, [irrigation_needed] is false and
    [optimal_watering] is ["6h"]: the comparison is strict. *)
Theorem analyze_data_predictions (data : list reading) (g : rng)
  (pd : processed) (g' : rng) :
  analyze_data data g = Ok (pd, g') ->
  let s := crop_stress_risk (p_predictions pd) in
  s = fst (uniform 0 1 g) /\
  irrigation_needed (p_predictions pd) = (0.7 <? s)%float /\
  optimal_watering (p_predictions pd) =
    (if (0.7 <? s)%float then "ASAP" else "6h") /\
  (s = 0.7%float ->
   irrigation_needed (p_predictions pd) = false /\
   optimal_watering (p_predictions pd) = "6h").
Proof.
  intros H. destruct (analyze_data_inv _ _ _ _ H) as [t [h [m [Ht [Hh Hm]]]]].
  rewrite (analyze_data_Ok data g t h m Ht Hh Hm) in H.
  injection H as <- <-. simpl.
  split; [reflexivity|]. split; [reflexivity|]. split; [reflexivity|].
  intros ->. split; reflexivity.
Qed.

Lemma analyze_data_predictions_witness :
  exists pd g',
    analyze_data
      [mk_reading TEMPERATURE 25; mk_reading SOIL_MOISTURE 50;
       mk_reading HUMIDITY 60] (const_rng 0.7) = Ok (pd, g') /\
    crop_stress_risk (p_predictions pd) = 0.7%float /\
    irrigation_needed (p_predictions pd) = false /\
    optimal_watering (p_predictions pd) = "6h".
Proof.
  eexists. eexists. split; [reflexivity|].
  split; [reflexivity|].
  eapply (analyze_data_predictions
            [mk_reading TEMPERATURE 25; mk_reading SOIL_MOISTURE 50;
             mk_reading HUMIDITY 60] (const_rng 0.7)).
  - reflexivity.
  - reflexivity.
Defined.

(** ** Actuation *)

(** What [control_actuators] leaves in each actuator, exception or not. *)
Lemma control_actuators_get (pd : processed) (st : actuator_state)
  (k : ActuatorType) :
  dict_get k (fst (control_actuators pd st)) =
  if match k with
     | IRRIGATION => irrigation_needed (p_predictions pd)
     | COOLING => (30 <? heat_index (p_metrics pd))%float
     | VENTILATION => (25 <? dew_point (p_metrics pd))%float
     | FERTILIZER_DOSER =>
         match next_value (sensor_name CO2_LEVEL) (raw_data pd) with
         | Ok co2 => (co2 <? 400)%float
         | Raise _ => false
         end
     end
  then Some true else dict_get k st.
Proof.
  rewrite control_actuators_state. cbv zeta.
  destruct (next_value (sensor_name CO2_LEVEL) (raw_data pd)) as [co2|e];
    rewrite ?rule_get; destruct k; simpl; rewrite ?andb_false_r, ?andb_true_r;
    repeat match goal with
           | |- context [if ?c then _ else _] => destruct c
           end; reflexivity.
Qed.

(** No call turns an actuator off. *)
Lemma control_actuators_keeps (pd : processed) (st : actuator_state)
  (k : ActuatorType) :
  dict_get k st = Some true ->
  dict_get k (fst (control_actuators pd st)) = Some true.
Proof.
  intros H. rewrite control_actuators_get.
  match goal with |- (if ?c then _ else _) = _ => destruct c end;
    [reflexivity | exact H].
Qed.

(** C3: for every analysis result and actuator state, after
    [control_actuators] (whether it returned or raised) Irrigation has been
    set true iff [irrigation_needed] holds, Cooling iff [heat_index > 30],
    Ventilation iff [dew_point > 25], and FertilizerDoser iff the CO2_LEVEL
    reading of [raw_data] (the first one, when there are several) has a
    value [< 400]; an actuator whose rule did not fire keeps its value, each
    rule reads only its own condition, and no actuator is ever set to false.
    With no CO2_LEVEL reading in [raw_data] FertilizerDoser keeps its value
    and the call raises. *)
Theorem control_actuators_rules (pd : processed) (st : actuator_state) :
  let st' := fst (control_actuators pd st) in
  dict_get IRRIGATION st' =
    (if irrigation_needed (p_predictions pd)
     then Some true else dict_get IRRIGATION st) /\
  dict_get COOLING st' =
    (if (30 <? heat_index (p_metrics pd))%float
     then Some true else dict_get COOLING st) /\
  dict_get VENTILATION st' =
    (if (25 <? dew_point (p_metrics pd))%float
     then Some true else dict_get VENTILATION st) /\
  match readings_of CO2_LEVEL (raw_data pd) with
  | d :: _ =>
      dict_get FERTILIZER_DOSER st' =
        (if (r_value d <? 400)%float
         then Some true else dict_get FERTILIZER_DOSER st) /\
      exists out, snd (control_actuators pd st) = Ok out
  | [] =>
      dict_get FERTILIZER_DOSER st' = dict_get FERTILIZER_DOSER st /\
      snd (control_actuators pd st) = Raise StopIteration
  end /\
  forall k, dict_get k st' = dict_get k st \/ dict_get k st' = Some true.
Proof.
  cbv zeta.
  split; [apply (control_actuators_get pd st IRRIGATION)|].
  split; [apply (control_actuators_get pd st COOLING)|].
  split; [apply (control_actuators_get pd st VENTILATION)|].
  split.
  - pose proof (control_actuators_get pd st FERTILIZER_DOSER) as H.
    assert (Hs : snd (control_actuators pd st) =
                 match readings_of CO2_LEVEL (raw_data pd) with
                 | _ :: _ => Ok [actuators_line (fst (control_actuators pd st))]
                 | [] => Raise StopIteration
                 end).
    { unfold control_actuators.
      rewrite (next_value_readings_of CO2_LEVEL (raw_data pd)).
      destruct (readings_of CO2_LEVEL (raw_data pd)); reflexivity. }
    rewrite (next_value_readings_of CO2_LEVEL (raw_data pd)) in H.
    destruct (readings_of CO2_LEVEL (raw_data pd)) as [|d ds];
      split; try exact H; rewrite Hs; eauto.
  - intros k. rewrite control_actuators_get.
    match goal with |- context [if ?c then _ else _] => destruct c end; auto.
Qed.

Lemma control_all_keeps (pds : list processed) (st : actuator_state)
  (k : ActuatorType) :
  dict_get k st = Some true -> dict_get k (control_all pds st) = Some true.
Proof.
  unfold control_all. revert st.
  induction pds as [|pd pds IH]; intros st H; simpl; [exact H|].
  apply IH, control_actuators_keeps, H.
Qed.

(** A second call with the same result finds every rule's actuator on. *)
Lemma control_actuators_idem (pd : processed) (st : actuator_state) :
  control_actuators pd (fst (control_actuators pd st)) =
  control_actuators pd st.
Proof.
  assert (Hrule : forall (c : bool) k d,
             (c = true -> dict_get k d = Some true) ->
             (if c then dict_set k true d else d) = d).
  { intros c k d H. destruct c; [|reflexivity].
    apply dict_set_same_value, H. reflexivity. }
  pose proof (control_actuators_get pd st) as G.
  set (s1 := fst (control_actuators pd st)) in *.
  assert (E : fst (control_actuators pd s1) = s1).
  { rewrite (control_actuators_state pd s1). cbv zeta.
    rewrite (Hrule _ IRRIGATION s1).
    2:{ intros Hc. rewrite (G IRRIGATION), Hc. reflexivity. }
    rewrite (Hrule _ COOLING s1).
    2:{ intros Hc. rewrite (G COOLING), Hc. reflexivity. }
    rewrite (Hrule _ VENTILATION s1).
    2:{ intros Hc. rewrite (G VENTILATION), Hc. reflexivity. }
    destruct (next_value (sensor_name CO2_LEVEL) (raw_data pd)) as [co2|e]
      eqn:Hco2; [|reflexivity].
    apply Hrule. intros Hc. rewrite (G FERTILIZER_DOSER), Hc. reflexivity. }
  assert (E2 : snd (control_actuators pd s1) =
               match next_value (sensor_name CO2_LEVEL) (raw_data pd) with
               | Ok _ => Ok [actuators_line (fst (control_actuators pd s1))]
               | Raise e => Raise e
               end).
  { unfold control_actuators.
    destruct (next_value (sensor_name CO2_LEVEL) (raw_data pd)); reflexivity. }
  assert (E3 : snd (control_actuators pd st) =
               match next_value (sensor_name CO2_LEVEL) (raw_data pd) with
               | Ok _ => Ok [actuators_line s1]
               | Raise e => Raise e
               end).
  { unfold s1, control_actuators.
    destruct (next_value (sensor_name CO2_LEVEL) (raw_data pd)); reflexivity. }
  rewrite (surjective_pairing (control_actuators pd s1)).
  rewrite (surjective_pairing (control_actuators pd st)).
  rewrite E2, E3, E. reflexivity.
Qed.

(** C4: [control_actuators] is monotone and idempotent on the actuator
    state: an actuator that is true before a call is true after it, and
    after any number of later calls (a latch); and a second call with the
    same analysis result leaves the state the first call left. *)
Theorem control_actuators_latch (pd : processed) (pds : list processed)
  (st : actuator_state) :
  (forall k, dict_get k st = Some true ->
     dict_get k (fst (control_actuators pd st)) = Some true /\
     dict_get k (control_all pds st) = Some true) /\
  fst (control_actuators pd (fst (control_actuators pd st))) =
  fst (control_actuators pd st).
Proof.
  split.
  - intros k H. split; [apply control_actuators_keeps, H|].
    apply control_all_keeps, H.
  - rewrite control_actuators_idem. reflexivity.
Qed.

Lemma control_actuators_latch_witness :
  let quiet := mk_processed [mk_reading CO2_LEVEL 500] 10 20 0.1 in
  let st := dict_set COOLING true actuators_init in
  dict_get COOLING st = Some true /\
  dict_get COOLING (fst (control_actuators quiet st)) = Some true /\
  dict_get COOLING (control_all [quiet; quiet; quiet] st) = Some true.
Proof.
  cbv zeta. split; [reflexivity|].
  apply (proj1 (control_actuators_latch
                  (mk_processed [mk_reading CO2_LEVEL 500] 10 20 0.1)
                  [mk_processed [mk_reading CO2_LEVEL 500] 10 20 0.1;
                   mk_processed [mk_reading CO2_LEVEL 500] 10 20 0.1;
                   mk_processed [mk_reading CO2_LEVEL 500] 10 20 0.1]
                  (dict_set COOLING true actuators_init)) COOLING).
  reflexivity.
Defined.

(** ** Reporting and storage *)

Lemma multiple_of_5 (n : nat) :
  (Z.of_nat n mod 5 =? 0) = true <-> exists q : nat, n = (5 * q)%nat.
Proof.
  rewrite Z.eqb_eq. split.
  - intros H. exists (Z.to_nat (Z.of_nat n / 5)).
    pose proof (Z.div_mod (Z.of_nat n) 5 ltac:(lia)) as D.
    assert (0 <= Z.of_nat n / 5) by (apply Z.div_pos; lia). lia.
  - intros [q ->]. rewrite Nat2Z.inj_mul, Z.mul_comm. apply Z.mod_mul. lia.
Qed.

(** The last three entries of a list of at least three. *)
Lemma last3_spec {A : Type} (l : list A) :
  (3 <= List.length l)%nat ->
  exists pre a b c, l = pre ++ [a; b; c] /\ last3 l = [a; b; c].
Proof.
  intros H. unfold last3.
  pose proof (firstn_skipn (List.length l - 3) l) as E.
  assert (L : List.length (skipn (List.length l - 3) l) = 3%nat)
    by (rewrite length_skipn; lia).
  destruct (skipn (List.length l - 3) l) as [|a [|b [|c [|d tl]]]];
    simpl in L; try discriminate.
  exists (firstn (List.length l - 3) l), a, b, c. auto.
Qed.

Lemma business_reports_history (pds history : list processed) :
  fst (business_reports pds history) = history ++ pds.
Proof.
  revert history. induction pds as [|pd pds IH]; intros history; simpl.
  - rewrite app_nil_r. reflexivity.
  - destruct (business_report pd history) as [h out] eqn:E.
    specialize (IH h). destruct (business_reports pds h) as [h' outs].
    simpl in *. rewrite IH.
    assert (h = history ++ [pd]) as ->.
    { unfold business_report in E.
      destruct (Z.of_nat (List.length (history ++ [pd])) mod 5 =? 0);
        injection E as <- _; reflexivity. }
    rewrite <- app_assoc. reflexivity.
Qed.

(** C5: [business_report] appends its argument to the history on every
    call; it prints the summary exactly when the new length is a multiple of
    5 (5, 10, 15, ...) and nothing otherwise; the summary's total is the new
    length, its recent stress levels are the crop-stress values of the last
    three entries, its advice is the fixed text; and entries are never
    removed or capped, whatever the number of calls. *)
Theorem business_report_summary (pd : processed) (pds history : list processed) :
  let h := fst (business_report pd history) in
  let out := snd (business_report pd history) in
  h = history ++ [pd] /\
  (((exists q : nat, List.length h = (5 * S q)%nat) /\
    exists pre a b c,
      h = pre ++ [a; b; c] /\
      out = [ BusinessReportHeader;
              TotalDataPoints (Z.of_nat (List.length h));
              RecentStressLevels
                [ crop_stress_risk (p_predictions a);
                  crop_stress_risk (p_predictions b);
                  crop_stress_risk (p_predictions c) ];
              RecommendedActions "Check irrigation valves" ])
   \/
   ((forall q : nat, List.length h <> (5 * q)%nat) /\ out = [])) /\
  fst (business_reports pds history) = history ++ pds.
Proof.
  cbv zeta. unfold business_report.
  destruct (Z.of_nat (List.length (history ++ [pd])) mod 5 =? 0) eqn:E; simpl.
  - split; [reflexivity|]. split; [|apply business_reports_history]. left.
    apply multiple_of_5 in E. destruct E as [q Hq].
    assert (Hlen : List.length (history ++ [pd]) = S (List.length history))
      by (rewrite length_app; simpl; lia).
    destruct q as [|q]; [lia|].
    split; [exists q; exact Hq|].
    destruct (last3_spec (history ++ [pd]) ltac:(lia)) as [pre [a [b [c [H1 H2]]]]].
    exists pre, a, b, c. split; [exact H1|]. rewrite H2. reflexivity.
  - split; [reflexivity|]. split; [|apply business_reports_history]. right.
    split; [|reflexivity]. intros q Hq.
    assert (X : (Z.of_nat (List.length (history ++ [pd])) mod 5 =? 0) = true)
      by (apply multiple_of_5; exists q; exact Hq).
    congruence.
Qed.

Lemma cloud_sync_spec (data : processed) (local_db : list processed) :
  cloud_sync data local_db =
  (local_db ++ [data],
   if Z.of_nat (S (List.length local_db)) mod 5 =? 0
   then [CloudSyncUploaded 5] else []).
Proof.
  unfold cloud_sync, cloud_sync_interval.
  replace (List.length (local_db ++ [data])) with (S (List.length local_db))
    by (rewrite length_app; simpl; lia).
  destruct (Z.of_nat (S (List.length local_db)) mod 5 =? 0); reflexivity.
Qed.

Lemma cloud_syncs_spec (pds local_db : list processed) :
  cloud_syncs pds local_db =
  (local_db ++ pds,
   map (fun i : nat =>
          if Z.of_nat (List.length local_db + S i) mod 5 =? 0
          then [CloudSyncUploaded 5] else [])
     (seq 0 (List.length pds))).
Proof.
  revert local_db. induction pds as [|pd pds IH]; intros local_db.
  - simpl. rewrite app_nil_r. reflexivity.
  - cbn [cloud_syncs]. rewrite cloud_sync_spec, IH.
    rewrite <- app_assoc. cbn [List.length seq map app]. f_equal. f_equal.
    + rewrite Nat.add_1_r. reflexivity.
    + rewrite <- seq_shift, map_map. apply map_ext. intros i.
      rewrite length_app. simpl.
      replace (List.length local_db + 1 + S i)%nat
        with (List.length local_db + S (S i))%nat by lia.
      reflexivity.
Qed.

(** C6: [cloud_sync] appends its argument to the buffer on every call; it
    prints the sync report, with count [cloud_sync_interval] (5), exactly
    when the new buffer length is a multiple of the interval and nothing
    otherwise; the buffer is never drained, so from an empty buffer the
    calls number 5, 10, 15, ... and only they print one report of 5. *)
Theorem cloud_sync_report (data : processed) (pds local_db : list processed) :
  let db := fst (cloud_sync data local_db) in
  let out := snd (cloud_sync data local_db) in
  cloud_sync_interval = 5 /\
  db = local_db ++ [data] /\
  (((exists q : nat, List.length db = (5 * S q)%nat) /\
    out = [CloudSyncUploaded cloud_sync_interval])
   \/
   ((forall q : nat, List.length db <> (5 * q)%nat) /\ out = [])) /\
  cloud_syncs pds [] =
  (pds,
   map (fun i : nat =>
          if Z.of_nat (S i) mod 5 =? 0
          then [CloudSyncUploaded 5] else [])
     (seq 0 (List.length pds))).
Proof.
  cbv zeta. rewrite cloud_sync_spec. cbn [fst snd].
  change cloud_sync_interval with 5.
  split; [reflexivity|]. split; [reflexivity|].
  split; [|apply (cloud_syncs_spec pds [])].
  assert (Hlen : List.length (local_db ++ [data]) = S (List.length local_db))
    by (rewrite length_app; simpl; lia).
  rewrite Hlen.
  destruct (Z.of_nat (S (List.length local_db)) mod 5 =? 0) eqn:E.
  - left. split; [|reflexivity].
    apply multiple_of_5 in E. destruct E as [[|q] Hq]; [lia|].
    exists q. exact Hq.
  - right. split; [|reflexivity]. intros q Hq.
    assert (X : (Z.of_nat (S (List.length local_db)) mod 5 =? 0) = true)
      by (apply multiple_of_5; exists q; exact Hq).
    congruence.
Qed.

(** ** Missing readings *)

(** C7, as stated, fails: a batch with Temperature, Humidity and
    SoilMoisture readings and no Co2Level reading is analysed without
    error. *)
Lemma analyze_data_without_co2 :
  has_reading CO2_LEVEL
    [mk_reading TEMPERATURE 25; mk_reading HUMIDITY 60;
     mk_reading SOIL_MOISTURE 50] = false /\
  exists pd g',
    analyze_data
      [mk_reading TEMPERATURE 25; mk_reading HUMIDITY 60;
       mk_reading SOIL_MOISTURE 50] (const_rng 0.5) = Ok (pd, g').
Proof.
  split; [reflexivity|]. eexists. eexists. reflexivity.
Qed.

(** C7, amended: [analyze_data] returns exactly on the batches that have at
    least one reading each of Temperature, Humidity and SoilMoisture (a
    Co2Level reading is not asked for), and on every other batch it raises
    [StopIteration], which carries no sensor kind. *)
Theorem analyze_data_succeeds_iff (data : list reading) (g : rng) :
  if has_reading TEMPERATURE data && has_reading HUMIDITY data
     && has_reading SOIL_MOISTURE data
  then exists pd g', analyze_data data g = Ok (pd, g')
  else analyze_data data g = Raise StopIteration.
Proof.
  unfold analyze_data.
  destruct (has_reading TEMPERATURE data) eqn:Ht; cbn [andb].
  2:{ rewrite (next_value_has_not _ _ Ht). reflexivity. }
  destruct (next_value_has _ _ Ht) as [t ->].
  destruct (has_reading HUMIDITY data) eqn:Hh; cbn [andb].
  2:{ rewrite (next_value_has_not _ _ Hh). reflexivity. }
  destruct (next_value_has _ _ Hh) as [h ->].
  destruct (has_reading SOIL_MOISTURE data) eqn:Hm; cbn [andb].
  2:{ rewrite (next_value_has_not _ _ Hm). reflexivity. }
  destruct (next_value_has _ _ Hm) as [m ->].
  eexists. eexists. reflexivity.
Qed.

(** C8: when the analysis of a cycle's batch raises, the cycle ends with
    that exception and the history, the pending buffer and the actuator
    state are what they were before it: the decision, the report and the
    sync do not run. *)
Theorem stages_analysis_failure (sensor_data : list reading) (w : world)
  (e : exn) :
  analyze_data sensor_data (w_rng w) = Raise e ->
  snd (stages sensor_data w) = Raise e /\
  w_history (fst (stages sensor_data w)) = w_history w /\
  w_local_db (fst (stages sensor_data w)) = w_local_db w /\
  w_actuators (fst (stages sensor_data w)) = w_actuators w.
Proof.
  intros H. unfold stages.
  change (w_rng (send_mqtt sensor_data w)) with (w_rng w).
  rewrite H. simpl. auto.
Qed.

Lemma stages_analysis_failure_witness :
  let w := world_init (const_rng 0.5) (fun _ => "2024-01-01T00:00:00") in
  let batch := [mk_reading TEMPERATURE 25; mk_reading CO2_LEVEL 350] in
  snd (stages batch w) = Raise StopIteration /\
  w_history (fst (stages batch w)) = [] /\
  w_local_db (fst (stages batch w)) = [] /\
  w_actuators (fst (stages batch w)) = actuators_init.
Proof.
  cbv zeta.
  apply (stages_analysis_failure
           [mk_reading TEMPERATURE 25; mk_reading CO2_LEVEL 350]
           (world_init (const_rng 0.5) (fun _ => "2024-01-01T00:00:00"))
           StopIteration).
  reflexivity.
Defined.

(** Without a Co2Level reading the decision stage raises, whatever the
    first three rules did. *)
Lemma control_actuators_without_co2 (pd : processed) (st : actuator_state) :
  has_reading CO2_LEVEL (raw_data pd) = false ->
  snd (control_actuators pd st) = Raise StopIteration.
Proof.
  intros H. unfold control_actuators.
  rewrite (next_value_has_not _ _ H). reflexivity.
Qed.

(** C10: there is a batch with Temperature, Humidity and SoilMoisture
    readings and no Co2Level reading on which [analyze_data] returns
    normally and the following [control_actuators] sets Irrigation, Cooling
    and Ventilation to true and then raises on the Co2Level lookup: the
    failure is in the decision stage and leaves the actuator state changed;
    run as a cycle, the history and the buffer are not written. *)
Theorem missing_co2_fails_in_decision :
  exists (data : list reading) (g : rng) (pd : processed) (g' : rng)
         (st' : actuator_state),
    has_reading TEMPERATURE data = true /\
    has_reading HUMIDITY data = true /\
    has_reading SOIL_MOISTURE data = true /\
    has_reading CO2_LEVEL data = false /\
    analyze_data data g = Ok (pd, g') /\
    control_actuators pd actuators_init = (st', Raise StopIteration) /\
    dict_get IRRIGATION actuators_init = Some false /\
    dict_get COOLING actuators_init = Some false /\
    dict_get VENTILATION actuators_init = Some false /\
    dict_get IRRIGATION st' = Some true /\
    dict_get COOLING st' = Some true /\
    dict_get VENTILATION st' = Some true /\
    let w := world_init g (fun _ => "2024-01-01T00:00:00") in
    snd (stages data w) = Raise StopIteration /\
    w_actuators (fst (stages data w)) = st' /\
    w_history (fst (stages data w)) = [] /\
    w_local_db (fst (stages data w)) = [].
Proof.
  exists [mk_reading TEMPERATURE 30; mk_reading HUMIDITY 80;
          mk_reading SOIL_MOISTURE 50].
  exists (const_rng 0.9).
  eexists. eexists. eexists.
  repeat (split; [reflexivity|]). cbv zeta.
  repeat (split; [reflexivity|]). reflexivity.
Qed.

(** * Binary64 arithmetic *)

(** ** Binary digits *)

Lemma digits2_pos_bounds (m : positive) :
  2 ^ (Z.pos (digits2_pos m) - 1) <= Z.pos m < 2 ^ Z.pos (digits2_pos m).
Proof.
  induction m as [m IH|m IH|]; cbn [digits2_pos].
  - rewrite Pos2Z.inj_succ, Pos2Z.inj_xI.
    replace (Z.succ (Z.pos (digits2_pos m)) - 1)
      with (Z.succ (Z.pos (digits2_pos m) - 1)) by lia.
    rewrite !Z.pow_succ_r by lia.
    set (a := 2 ^ (Z.pos (digits2_pos m) - 1)) in *.
    set (b := 2 ^ (Z.pos (digits2_pos m))) in *. lia.
  - rewrite Pos2Z.inj_succ. change (Z.pos m~0) with (2 * Z.pos m).
    replace (Z.succ (Z.pos (digits2_pos m)) - 1)
      with (Z.succ (Z.pos (digits2_pos m) - 1)) by lia.
    rewrite !Z.pow_succ_r by lia.
    set (a := 2 ^ (Z.pos (digits2_pos m) - 1)) in *.
    set (b := 2 ^ (Z.pos (digits2_pos m))) in *. lia.
  - simpl. lia.
Qed.

Lemma Zdigits2_bounds (m : Z) :
  0 < m -> 2 ^ (Zdigits2 m - 1) <= m < 2 ^ Zdigits2 m.
Proof.
  destruct m as [|p|p]; try lia. intros _. apply digits2_pos_bounds.
Qed.

Lemma Zdigits2_pos (m : Z) : 0 < m -> 0 < Zdigits2 m.
Proof. destruct m; simpl; lia. Qed.

Lemma Zdigits2_le (m : Z) (k : Z) : 0 < m -> m < 2 ^ k -> Zdigits2 m <= k.
Proof.
  intros Hm Hk. pose proof (Zdigits2_bounds m Hm) as [L _].
  pose proof (Zdigits2_pos m Hm).
  destruct (Z_le_gt_dec (Zdigits2 m) k) as [|G]; [assumption|exfalso].
  destruct (Z_lt_le_dec k 0).
  - rewrite Z.pow_neg_r in Hk by assumption. lia.
  - assert (2 ^ k <= 2 ^ (Zdigits2 m - 1)) by (apply Z.pow_le_mono_r; lia).
    lia.
Qed.

Lemma Zdigits2_ge (m : Z) (k : Z) : 0 < m -> 2 ^ (k - 1) <= m -> k <= Zdigits2 m.
Proof.
  intros Hm Hk. pose proof (Zdigits2_bounds m Hm) as [_ U].
  pose proof (Zdigits2_pos m Hm).
  destruct (Z_le_gt_dec k (Zdigits2 m)) as [|G]; [assumption|exfalso].
  assert (2 ^ Zdigits2 m <= 2 ^ (k - 1)) by (apply Z.pow_le_mono_r; lia).
  lia.
Qed.

(** ** Shifting right *)

Lemma iter_pos_iter {A : Type} (f : A -> A) (p : positive) (x : A) :
  iter_pos f p x = Pos.iter f x p.
Proof.
  revert x. induction p as [p IH|p IH|]; intros x; simpl.
  - rewrite !IH. rewrite <- !Pos.iter_swap. reflexivity.
  - rewrite !IH. reflexivity.
  - reflexivity.
Qed.

Lemma shr_1_m (r : shr_record) : 0 <= shr_m r -> shr_m (shr_1 r) = shr_m r / 2.
Proof.
  destruct r as [m r s]. simpl. intros H.
  destruct m as [|[p|p|]|p]; try lia; simpl.
  - reflexivity.
  - apply (Z.div_unique _ 2 _ 1); lia.
  - apply (Z.div_unique _ 2 _ 0); lia.
  - reflexivity.
Qed.

Lemma shr_1_exact (r : shr_record) :
  0 <= shr_m r -> shr_exact (shr_1 r) = shr_exact r && Z.even (shr_m r).
Proof.
  destruct r as [m r s]. unfold shr_exact. simpl. intros H.
  destruct m as [|[p|p|]|p]; try lia; simpl; destruct r, s; reflexivity.
Qed.

Lemma shr_iter (p : positive) (r : shr_record) :
  0 <= shr_m r ->
  shr_m (iter_pos shr_1 p r) = shr_m r / 2 ^ Z.pos p /\
  (shr_exact r = true -> shr_m r mod 2 ^ Z.pos p = 0 ->
   shr_exact (iter_pos shr_1 p r) = true).
Proof.
  intros H. rewrite iter_pos_iter.
  induction p as [|p IH] using Pos.peano_ind.
  - simpl Pos.iter. rewrite shr_1_m, shr_1_exact by assumption.
    change (2 ^ 1) with 2. split; [reflexivity|].
    intros -> Hm. simpl. rewrite Z.even_spec. 
    apply Z.mod_divide in Hm; [|lia]. destruct Hm as [k ->]. exists k. lia.
  - rewrite Pos.iter_succ. destruct IH as [IHm IHe].
    assert (0 <= shr_m (Pos.iter shr_1 r p)).
    { rewrite IHm. apply Z.div_pos; [assumption|]. apply Z.pow_pos_nonneg; lia. }
    rewrite shr_1_m, shr_1_exact by assumption.
    rewrite IHm, Pos2Z.inj_succ, Z.pow_succ_r by lia.
    split.
    + rewrite Z.div_div by (try apply Z.pow_pos_nonneg; lia).
      f_equal. lia.
    + intros He Hm.
      assert (D : shr_m r mod 2 ^ Z.pos p = 0).
      { apply Z.mod_divide; [pose proof (Z.pow_pos_nonneg 2 (Z.pos p)); lia|].
        apply Z.mod_divide in Hm; [|pose proof (Z.pow_pos_nonneg 2 (Z.pos p)); lia].
        destruct Hm as [k ->]. exists (k * 2). lia. }
      rewrite (IHe He D). simpl. rewrite Z.even_spec.
      apply Z.mod_divide in Hm; [|pose proof (Z.pow_pos_nonneg 2 (Z.pos p)); lia].
      destruct Hm as [k ->]. exists k.
      replace (k * (2 * 2 ^ Z.pos p)) with ((2*k) * 2 ^ Z.pos p) by lia.
      rewrite Z.div_mul; [lia|]. pose proof (Z.pow_pos_nonneg 2 (Z.pos p)); lia.
Qed.

Lemma shr_exact_loc (r : shr_record) :
  shr_exact r = true -> loc_of_shr_record r = loc_Exact.
Proof. destruct r as [m [|] [|]]; simpl; intros; try discriminate; reflexivity. Qed.

Lemma shr_record_of_loc_m (m : Z) (l : location) :
  shr_m (shr_record_of_loc m l) = m.
Proof. destruct l as [|[| |]]; reflexivity. Qed.

Lemma loc_of_shr_record_of_loc (m : Z) (l : location) :
  loc_of_shr_record (shr_record_of_loc m l) = l.
Proof. destruct l as [|[| |]]; reflexivity. Qed.

Lemma pow2_pos (k : Z) : 0 <= k -> 0 < 2 ^ k.
Proof. intros. apply Z.pow_pos_nonneg; lia. Qed.

(** [shr] divides the mantissa by [2 ^ n], and the record stays exact when
    the division is. *)
Lemma shr_spec (m : Z) (l : location) (e n : Z) :
  0 <= m ->
  shr_m (fst (shr (shr_record_of_loc m l) e n)) = m / 2 ^ Z.max n 0 /\
  snd (shr (shr_record_of_loc m l) e n) = e + Z.max n 0 /\
  (l = loc_Exact -> m mod 2 ^ Z.max n 0 = 0 ->
   loc_of_shr_record (fst (shr (shr_record_of_loc m l) e n)) = loc_Exact) /\
  (n <= 0 -> loc_of_shr_record (fst (shr (shr_record_of_loc m l) e n)) = l).
Proof.
  intros Hm. destruct n as [|p|p]; cbn [shr fst snd].
  - change (Z.max 0 0) with 0. rewrite Z.div_1_r, Z.add_0_r, shr_record_of_loc_m.
    repeat split; intros; subst; try reflexivity.
    apply loc_of_shr_record_of_loc.
  - replace (Z.max (Z.pos p) 0) with (Z.pos p) by lia.
    pose proof (shr_iter p (shr_record_of_loc m l)) as H.
    rewrite shr_record_of_loc_m in H. destruct (H Hm) as [H1 H2].
    repeat split; try assumption; [|lia].
    intros -> Hd. apply shr_exact_loc, H2; [reflexivity | exact Hd].
  - replace (Z.max (Z.neg p) 0) with 0 by lia.
    rewrite Z.div_1_r, Z.add_0_r, shr_record_of_loc_m.
    repeat split; intros; subst; try reflexivity.
    apply loc_of_shr_record_of_loc.
Qed.

Lemma round_nearest_even_bounds (m : Z) (l : location) :
  m <= round_nearest_even m l <= m + 1 /\
  (l = loc_Exact -> round_nearest_even m l = m).
Proof.
  destruct l as [|[| |]]; simpl; try destruct (Z.even m); split; intros;
    try discriminate; try reflexivity; lia.
Qed.

Lemma fexp_le_0 (m e : Z) :
  0 <= m -> e <= 0 -> m < 2 ^ (53 - e) -> fexp prec emax (Zdigits2 m + e) <= 0.
Proof.
  intros Hm He Hlt. unfold fexp, SpecFloat.emin, prec, emax.
  assert (Zdigits2 m + e <= 53); [|lia].
  destruct (Z.eq_dec m 0) as [->|Hn]; [simpl; lia|].
  pose proof (Zdigits2_le m (53 - e) ltac:(lia) Hlt). lia.
Qed.

(** The number [binary_round_aux] returns for a value between two integers
    [A] and [B] lies between them.  The value is [mx * 2 ^ ex] when [lx] is
    exact and lies strictly between that and [(mx + 1) * 2 ^ ex]
    otherwise. *)
Lemma binary_round_aux_bounds (s : bool) (mx ex : Z) (lx : location) (A B : Z) :
  0 <= mx -> ex <= 0 -> 0 <= A -> B < 2 ^ 53 ->
  A * 2 ^ (- ex) <= mx ->
  (mx < B * 2 ^ (- ex) \/ (lx = loc_Exact /\ mx = B * 2 ^ (- ex))) ->
  match binary_round_aux prec emax s mx ex lx with
  | S754_zero s' => s' = s /\ A = 0
  | S754_finite s' m e =>
      s' = s /\ e <= 0 /\ A * 2 ^ (- e) <= Z.pos m <= B * 2 ^ (- e)
  | _ => False
  end.
Proof.
  intros Hmx Hex HA HB Hlo Hhi.
  unfold binary_round_aux, shr_fexp.
  set (n1 := fexp prec emax (Zdigits2 mx + ex) - ex).
  destruct (shr_spec mx lx ex n1 Hmx) as [M1 [E1 [X1 _]]].
  destruct (shr (shr_record_of_loc mx lx) ex n1) as [r1 e1].
  cbn [fst snd] in M1, E1, X1.
  set (k1 := Z.max n1 0) in *.
  assert (Hk1 : 0 <= k1) by lia.
  pose proof (pow2_pos k1 Hk1) as HK1.
  assert (HBpos : mx <= B * 2 ^ (- ex)) by lia.
  assert (Hmx53 : mx < 2 ^ (53 - ex)).
  { replace (53 - ex) with (53 + - ex) by lia. rewrite Z.pow_add_r by lia.
    pose proof (pow2_pos (- ex) ltac:(lia)). nia. }
  assert (He1 : e1 <= 0).
  { pose proof (fexp_le_0 mx ex Hmx Hex Hmx53). lia. }
  assert (Hsplit : 2 ^ (- ex) = 2 ^ (- e1) * 2 ^ k1).
  { rewrite <- Z.pow_add_r by lia. f_equal. lia. }
  pose proof (pow2_pos (- e1) ltac:(lia)) as HP1.
  set (m1 := shr_m r1) in *.
  destruct (round_nearest_even_bounds m1 (loc_of_shr_record r1)) as [R1 R2].
  set (m2 := round_nearest_even m1 (loc_of_shr_record r1)) in *.
  assert (Lo2 : A * 2 ^ (- e1) <= m2).
  { assert (A * 2 ^ (- e1) <= m1); [|lia].
    rewrite M1. apply Z.div_le_lower_bound; [assumption|].
    rewrite Hsplit in Hlo. lia. }
  assert (Hi2 : m2 <= B * 2 ^ (- e1)).
  { destruct Hhi as [Hlt | [Hx Heq]].
    - assert (m1 < B * 2 ^ (- e1)); [|lia].
      rewrite M1. apply Z.div_lt_upper_bound; [assumption|].
      rewrite Hsplit in Hlt. lia.
    - rewrite Hsplit, Z.mul_assoc in Heq.
      rewrite R2.
      + rewrite M1, Heq. rewrite Z.div_mul by lia. lia.
      + apply X1; [exact Hx|]. rewrite Heq. apply Z.mod_mul. lia. }
  assert (Hm2 : 0 <= m2).
  { assert (0 <= m1); [|lia]. rewrite M1. apply Z.div_pos; lia. }
  set (n2 := fexp prec emax (Zdigits2 m2 + e1) - e1).
  destruct (shr_spec m2 loc_Exact e1 n2 Hm2) as [M3 [E3 _]].
  destruct (shr (shr_record_of_loc m2 loc_Exact) e1 n2) as [r3 e3].
  cbn [fst snd] in M3, E3.
  set (k2 := Z.max n2 0) in *.
  assert (Hk2 : 0 <= k2) by lia.
  pose proof (pow2_pos k2 Hk2) as HK2.
  assert (Hm253 : m2 < 2 ^ (53 - e1)).
  { replace (53 - e1) with (53 + - e1) by lia. rewrite Z.pow_add_r by lia. nia. }
  assert (He3 : e3 <= 0).
  { pose proof (fexp_le_0 m2 e1 Hm2 He1 Hm253). lia. }
  assert (Hsplit2 : 2 ^ (- e1) = 2 ^ (- e3) * 2 ^ k2).
  { rewrite <- Z.pow_add_r by lia. f_equal. lia. }
  pose proof (pow2_pos (- e3) ltac:(lia)) as HP3.
  assert (Lo3 : A * 2 ^ (- e3) <= shr_m r3).
  { rewrite M3. apply Z.div_le_lower_bound; [assumption|].
    rewrite Hsplit2 in Lo2. lia. }
  assert (Hi3 : shr_m r3 <= B * 2 ^ (- e3)).
  { rewrite M3. rewrite Hsplit2, Z.mul_assoc in Hi2.
    rewrite <- (Z.div_mul (B * 2 ^ (- e3)) (2 ^ k2)) by lia.
    apply Z.div_le_mono; lia. }
  destruct (shr_m r3) as [|m3|m3] eqn:Em3.
  - split; [reflexivity|]. nia.
  - replace (e3 <=? emax - prec) with true
      by (symmetry; apply Z.leb_le; unfold emax, prec; lia).
    auto.
  - pose proof (Z.div_pos m2 (2 ^ k2) Hm2 HK2). lia.
Qed.

(** ** Validity of rounded numbers *)

Lemma Zdigits2_mono (m m' : Z) : 0 < m -> m <= m' -> Zdigits2 m <= Zdigits2 m'.
Proof.
  intros Hm Hle. apply Zdigits2_ge; [lia|].
  pose proof (Zdigits2_bounds m Hm). lia.
Qed.

Lemma Zdigits2_shift (m n : Z) :
  0 < m -> 0 <= n < Zdigits2 m ->
  0 < m / 2 ^ n /\ Zdigits2 (m / 2 ^ n) = Zdigits2 m - n.
Proof.
  intros Hm Hn. pose proof (Zdigits2_bounds m Hm) as [L U].
  pose proof (pow2_pos n ltac:(lia)) as HP.
  assert (L' : 2 ^ (Zdigits2 m - n - 1) <= m / 2 ^ n).
  { apply Z.div_le_lower_bound; [assumption|].
    rewrite <- Z.pow_add_r by lia.
    replace (n + (Zdigits2 m - n - 1)) with (Zdigits2 m - 1) by lia. exact L. }
  assert (U' : m / 2 ^ n < 2 ^ (Zdigits2 m - n)).
  { apply Z.div_lt_upper_bound; [assumption|].
    rewrite <- Z.pow_add_r by lia.
    replace (n + (Zdigits2 m - n)) with (Zdigits2 m) by lia. exact U. }
  pose proof (pow2_pos (Zdigits2 m - n - 1) ltac:(lia)).
  assert (P : 0 < m / 2 ^ n) by lia.
  split; [exact P|].
  pose proof (Zdigits2_le _ _ P U'). pose proof (Zdigits2_ge _ (Zdigits2 m - n) P L').
  lia.
Qed.

Lemma fexp_mono (a b : Z) : a <= b -> fexp prec emax a <= fexp prec emax b.
Proof. unfold fexp. lia. Qed.

Lemma fexp_ge_emin (a : Z) : SpecFloat.emin prec emax <= fexp prec emax a.
Proof. unfold fexp. lia. Qed.

(** One [shr_fexp] on a mantissa with enough digits leaves a canonical
    mantissa, or none. *)
Lemma shr_fexp_canonical (m e : Z) (l : location) :
  0 < m -> e <= fexp prec emax (Zdigits2 m + e) ->
  let r := fst (shr_fexp prec emax m e l) in
  let e' := snd (shr_fexp prec emax m e l) in
  e' = fexp prec emax (Zdigits2 m + e) /\
  0 <= shr_m r /\
  (0 < shr_m r -> Zdigits2 (shr_m r) + e' = Zdigits2 m + e) /\
  (shr_m r = 0 -> e' = SpecFloat.emin prec emax).
Proof.
  intros Hm He. cbv zeta. unfold shr_fexp.
  set (n := fexp prec emax (Zdigits2 m + e) - e).
  destruct (shr_spec m l e n ltac:(lia)) as [M [E _]].
  rewrite M, E. replace (Z.max n 0) with n by lia.
  pose proof (pow2_pos n ltac:(lia)) as HP.
  split; [lia|]. split; [apply Z.div_pos; lia|].
  destruct (Z_lt_le_dec n (Zdigits2 m)) as [Hlt|Hge].
  - destruct (Zdigits2_shift m n Hm ltac:(lia)) as [P D].
    split; [intros _; lia | intros Z; lia].
  - assert (Z : m / 2 ^ n = 0).
    { apply Z.div_small. split; [lia|].
      pose proof (Zdigits2_bounds m Hm) as [_ U].
      assert (2 ^ Zdigits2 m <= 2 ^ n) by (apply Z.pow_le_mono_r; lia). lia. }
    split; [lia|]. intros _. unfold n in Hge.
    unfold fexp in *. unfold prec in *. lia.
Qed.

Lemma binary_round_aux_valid (s : bool) (mx ex : Z) (lx : location) :
  0 < mx -> ex <= fexp prec emax (Zdigits2 mx + ex) ->
  valid_binary (binary_round_aux prec emax s mx ex lx) = true.
Proof.
  intros Hmx Hex. unfold binary_round_aux.
  destruct (shr_fexp_canonical mx ex lx Hmx Hex) as [E1 [P1 [D1 Z1]]].
  destruct (shr_fexp prec emax mx ex lx) as [r1 e1]. cbn [fst snd] in *.
  set (m1 := shr_m r1) in *.
  destruct (round_nearest_even_bounds m1 (loc_of_shr_record r1)) as [R1 _].
  set (m2 := round_nearest_even m1 (loc_of_shr_record r1)) in *.
  destruct (Z.eq_dec m2 0) as [Hz|Hnz].
  { rewrite Hz. unfold shr_fexp. simpl Zdigits2.
    destruct (shr_spec 0 loc_Exact e1 (fexp prec emax (0 + e1) - e1) ltac:(lia))
      as [M _].
    destruct (shr (shr_record_of_loc 0 loc_Exact) e1
                (fexp prec emax (0 + e1) - e1)) as [r3 e3].
    cbn [fst] in M. rewrite M, Z.div_0_l. reflexivity.
    pose proof (pow2_pos (Z.max (fexp prec emax (0 + e1) - e1) 0) ltac:(lia)).
    lia. }
  assert (Hm2 : 0 < m2) by lia.
  assert (He2 : e1 <= fexp prec emax (Zdigits2 m2 + e1)).
  { destruct (Z.eq_dec m1 0) as [Hz1|Hnz1].
    - rewrite (Z1 Hz1). apply fexp_ge_emin.
    - rewrite E1 at 1. rewrite <- D1 by lia. apply fexp_mono.
      pose proof (Zdigits2_mono m1 m2 ltac:(lia) ltac:(lia)). lia. }
  destruct (shr_fexp_canonical m2 e1 loc_Exact Hm2 He2) as [E3 [P3 [D3 Z3]]].
  destruct (shr_fexp prec emax m2 e1 loc_Exact) as [r3 e3]. cbn [fst snd] in *.
  destruct (shr_m r3) as [|m3|m3] eqn:Em3; try reflexivity.
  destruct (e3 <=? emax - prec) eqn:Ee; [|reflexivity].
  simpl. unfold bounded, canonical_mantissa. rewrite Ee, andb_true_r.
  apply Z.eqb_eq. change (Z.pos (digits2_pos m3)) with (Zdigits2 (Z.pos m3)).
  rewrite D3 by lia. symmetry. exact E3.
Qed.

(** ** Numbers between two integers *)

Lemma valid_finite (s : bool) (m : positive) (e : Z) :
  valid_binary (S754_finite s m e) = true ->
  e = fexp prec emax (Zdigits2 (Z.pos m) + e).
Proof.
  simpl. unfold bounded, canonical_mantissa. intros H.
  apply andb_true_iff in H. destruct H as [H _].
  apply Z.eqb_eq in H. symmetry. exact H.
Qed.

(** A canonical mantissa has at most 53 bits, and exactly 53 above the
    least exponent. *)
Lemma valid_finite_bounds (s : bool) (m : positive) (e : Z) :
  valid_binary (S754_finite s m e) = true ->
  Z.pos m < 2 ^ 53 /\ (SpecFloat.emin prec emax < e -> 2 ^ 52 <= Z.pos m).
Proof.
  intros H. apply valid_finite in H.
  pose proof (Zdigits2_bounds (Z.pos m) ltac:(lia)) as [L U].
  unfold fexp, SpecFloat.emin, prec, emax in *.
  set (d := Zdigits2 (Z.pos m)) in *.
  assert (Hd : d <= 53) by lia.
  split.
  - assert (2 ^ d <= 2 ^ 53) by (apply Z.pow_le_mono_r; lia). lia.
  - intros He. assert (d = 53) by lia. subst d.
    replace (Zdigits2 (Z.pos m) - 1) with 52 in L by lia. exact L.
Qed.

Lemma SFleb_SFin (A B B' C : Z) (x y : spec_float) :
  valid_binary x = true -> valid_binary y = true ->
  SFin A B x -> SFin B' C y -> B <= B' ->
  SFleb x y = true.
Proof.
  intros Vx Vy Hx Hy HB.
  destruct x as [sx| |  |[|] mx ex]; try contradiction;
    destruct y as [sy| |  |[|] my ey]; try contradiction;
    try reflexivity.
  - (* finite, zero *)
    simpl in Hx, Hy. exfalso. destruct Hx as [He [L U]].
    pose proof (pow2_pos (- ex) ltac:(lia)). nia.
  - simpl in Hx, Hy. destruct Hx as [Hex [Lx Ux]]. destruct Hy as [Hey [Ly Uy]].
    destruct (valid_finite_bounds _ _ _ Vx) as [Mx Nx].
    destruct (valid_finite_bounds _ _ _ Vy) as [My Ny].
    pose proof (valid_finite _ _ _ Vx) as Cx.
    pose proof (valid_finite _ _ _ Vy) as Cy.
    pose proof (fexp_ge_emin (Zdigits2 (Z.pos mx) + ex)) as Gx.
    pose proof (fexp_ge_emin (Zdigits2 (Z.pos my) + ey)) as Gy.
    rewrite <- Cx in Gx. rewrite <- Cy in Gy.
    pose proof (pow2_pos (- ex) ltac:(lia)) as Px.
    pose proof (pow2_pos (- ey) ltac:(lia)) as Py.
    unfold SFleb, SFcompare.
    destruct (Z.compare_spec ex ey) as [E|E|E].
    + subst ey. rewrite Pos.compare_cont_spec. simpl.
      destruct (Pos.compare_spec mx my) as [E|E|E]; try reflexivity.
      exfalso. assert (Z.pos my < Z.pos mx) by lia. nia.
    + reflexivity.
    + exfalso.
      (* ey < ex: x has 53 bits and a larger exponent, so y < x *)
      specialize (Nx ltac:(lia)).
      assert (S : 2 ^ (- ey) = 2 ^ (- ex) * 2 ^ (ex - ey)).
      { rewrite <- Z.pow_add_r by lia. f_equal. lia. }
      assert (2 ^ 1 <= 2 ^ (ex - ey)) by (apply Z.pow_le_mono_r; lia).
      change (2 ^ 1) with 2 in *. change (2 ^ 52) with 4503599627370496 in *.
      change (2 ^ 53) with 9007199254740992 in *.
      set (P := 2 ^ (- ex)) in *. set (Q := 2 ^ (ex - ey)) in *.
      rewrite S in *. nia.
Qed.

Lemma SFunit_of_compare (x : spec_float) :
  valid_binary x = true ->
  SFleb (S754_zero false) x = true ->
  SFltb x (S754_finite false 4503599627370496 (-52)) = true ->
  SFunit x.
Proof.
  intros V H0 H1. destruct x as [s|s| |s m e]; cbn [SFunit].
  - exact I.
  - destruct s; cbn in H0, H1; discriminate.
  - cbn in H0; discriminate.
  - destruct s; [cbn in H0; discriminate|].
    destruct (valid_finite_bounds _ _ _ V) as [M _].
    unfold SFltb, SFcompare in H1.
    destruct (Z.compare_spec e (-52)) as [E|E|E]; try discriminate.
    + subst e. rewrite Pos.compare_cont_spec in H1. cbn [Pos.switch_Eq] in H1.
      destruct (m ?= 4503599627370496)%positive eqn:Cm; try discriminate.
      apply Pos.compare_lt_iff, Pos2Z.pos_lt_pos in Cm.
      clear H0 H1 V.
      split; [lia|]. exact Cm.
    + clear H0 H1 V. split; [lia|].
      assert (2 ^ 53 <= 2 ^ (- e)) by (apply Z.pow_le_mono_r; lia). lia.
Qed.


Lemma SFmul_bounds (C : Z) (c x : spec_float) :
  0 <= C < 2 ^ 53 -> SFin C C c -> SFunit x ->
  SFin 0 C (SF64mul c x).
Proof.
  intros HC Hc Hx. unfold SF64mul, SFmul.
  destruct c as [sc| | |[|] mc ec]; try contradiction;
    destruct x as [sx| | |[|] mx ex]; try contradiction;
    cbn [SFin SFunit] in Hc, Hx; try (cbn [SFin]; lia).
  destruct Hc as [Hec [Lc Uc]]. destruct Hx as [Hex Ux].
  pose proof (pow2_pos (- ec) ltac:(lia)) as Pc.
  pose proof (pow2_pos (- ex) ltac:(lia)) as Px.
  assert (S : 2 ^ (- (ec + ex)) = 2 ^ (- ec) * 2 ^ (- ex)).
  { rewrite <- Z.pow_add_r by lia. f_equal. lia. }
  pose proof (binary_round_aux_bounds false (Z.pos (mc * mx)) (ec + ex)
                loc_Exact 0 C) as H.
  cbn [xorb].
  assert (Hhi : Z.pos (mc * mx) < C * 2 ^ (- (ec + ex))).
  { rewrite S, Pos2Z.inj_mul. nia. }
  specialize (H ltac:(lia) ltac:(lia) ltac:(lia) ltac:(lia) ltac:(lia)
                (or_introl Hhi)).
  destruct (binary_round_aux prec emax false (Z.pos (mc * mx)) (ec + ex) loc_Exact)
    as [s|s| |s m e]; cbn [SFin]; try contradiction.
  - lia.
  - destruct H as [-> H]. exact H.
Qed.

Lemma pos_iter_xO (m d : positive) :
  Z.pos (Pos.iter xO m d) = Z.pos m * 2 ^ Z.pos d.
Proof.
  induction d as [|d IH] using Pos.peano_ind.
  - cbn [Pos.iter]. change (2 ^ 1) with 2. lia.
  - rewrite Pos.iter_succ, Pos2Z.inj_succ, Z.pow_succ_r by lia.
    change (Z.pos (Pos.iter xO m d)~0) with (2 * Z.pos (Pos.iter xO m d)).
    rewrite IH. lia.
Qed.

(** [shl_align] lowers the exponent and keeps the value. *)
Lemma shl_align_spec (m : positive) (e e' : Z) :
  snd (shl_align m e e') = Z.min e e' /\
  Z.pos (fst (shl_align m e e')) = Z.pos m * 2 ^ (e - Z.min e e').
Proof.
  unfold shl_align. destruct (e' - e) as [|d|d] eqn:E; cbn [fst snd].
  - replace (Z.min e e') with e by lia. rewrite Z.sub_diag. simpl. lia.
  - replace (Z.min e e') with e by lia. rewrite Z.sub_diag. simpl. lia.
  - replace (Z.min e e') with e' by lia. split; [reflexivity|].
    rewrite pos_iter_xO. f_equal. f_equal. lia.
Qed.

Lemma Zdigits2_mul_pow2 (m k : Z) :
  0 < m -> 0 <= k -> Zdigits2 (m * 2 ^ k) = Zdigits2 m + k.
Proof.
  intros Hm Hk. pose proof (Zdigits2_bounds m Hm) as [L U].
  pose proof (pow2_pos k Hk) as HP.
  pose proof (Zdigits2_pos m Hm) as Hd.
  assert (P : 0 < m * 2 ^ k) by nia.
  assert (U' : m * 2 ^ k < 2 ^ (Zdigits2 m + k)).
  { rewrite Z.pow_add_r by lia. nia. }
  assert (L' : 2 ^ (Zdigits2 m + k - 1) <= m * 2 ^ k).
  { replace (Zdigits2 m + k - 1) with (Zdigits2 m - 1 + k) by lia.
    rewrite Z.pow_add_r by lia. nia. }
  pose proof (Zdigits2_le _ _ P U'). pose proof (Zdigits2_ge _ _ P L'). lia.
Qed.

(** [binary_round] on a positive integer below [2 ^ 53] times a power of
    two: the result is valid and, between integer bounds, bounded. *)
Lemma binary_round_valid (s : bool) (m : positive) (e : Z) :
  valid_binary (binary_round prec emax s m e) = true.
Proof.
  unfold binary_round.
  destruct (shl_align_spec m e (fexp prec emax (Z.pos (digits2_pos m) + e)))
    as [E M].
  destruct (shl_align m e (fexp prec emax (Z.pos (digits2_pos m) + e)))
    as [mz ez]. cbn [fst snd] in E, M.
  apply binary_round_aux_valid; [lia|].
  rewrite M, Zdigits2_mul_pow2 by lia.
  change (Zdigits2 (Z.pos m)) with (Z.pos (digits2_pos m)).
  replace (Z.pos (digits2_pos m) + (e - Z.min e (fexp prec emax (Z.pos (digits2_pos m) + e))) + ez)
    with (Z.pos (digits2_pos m) + e) by lia.
  lia.
Qed.

Lemma binary_round_bounds (m : positive) (e A B : Z) :
  e <= 0 -> 0 <= A -> B < 2 ^ 53 ->
  A * 2 ^ (- e) <= Z.pos m <= B * 2 ^ (- e) ->
  SFin A B (binary_round prec emax false m e).
Proof.
  intros He HA HB [L U]. unfold binary_round.
  destruct (shl_align_spec m e (fexp prec emax (Z.pos (digits2_pos m) + e)))
    as [E M].
  destruct (shl_align m e (fexp prec emax (Z.pos (digits2_pos m) + e)))
    as [mz ez]. cbn [fst snd] in E, M.
  assert (Hez : ez <= e) by lia.
  assert (S : 2 ^ (- ez) = 2 ^ (- e) * 2 ^ (e - ez)).
  { rewrite <- Z.pow_add_r by lia. f_equal. lia. }
  replace (Z.min e (fexp prec emax (Z.pos (digits2_pos m) + e))) with ez in M
    by lia.
  pose proof (pow2_pos (- e) ltac:(lia)) as P1.
  pose proof (pow2_pos (e - ez) ltac:(lia)) as P2.
  pose proof (binary_round_aux_bounds false (Z.pos mz) ez loc_Exact A B) as H.
  assert (Lz : A * 2 ^ (- ez) <= Z.pos mz) by (rewrite S, M; nia).
  assert (Uz : Z.pos mz <= B * 2 ^ (- ez)) by (rewrite S, M; nia).
  assert (Hhi : Z.pos mz < B * 2 ^ (- ez) \/
                loc_Exact = loc_Exact /\ Z.pos mz = B * 2 ^ (- ez)).
  { destruct (Z.eq_dec (Z.pos mz) (B * 2 ^ (- ez))); [right; auto | left; lia]. }
  specialize (H ltac:(lia) ltac:(lia) HA HB Lz Hhi).
  destruct (binary_round_aux prec emax false (Z.pos mz) ez loc_Exact)
    as [s'|s'| |s' m' e']; cbn [SFin]; try contradiction.
  - destruct H as [_ ->].
    split; [lia|]. pose proof (pow2_pos (- ez) ltac:(lia)). nia.
  - destruct H as [-> H]. exact H.
Qed.

(** [float(n)] is exact for [0 <= n < 2 ^ 53]. *)
Lemma float_of_int_exact (n : Z) :
  0 <= n < 2 ^ 53 -> SFin n n (Prim2SF (float_of_int n)).
Proof.
  intros Hn. unfold float_of_int.
  rewrite Prim2SF_SF2Prim.
  - destruct n as [|p|p]; [simpl; lia| |lia].
    cbn [binary_normalize]. apply binary_round_bounds; lia.
  - destruct n as [|p|p]; try reflexivity; apply binary_round_valid.
Qed.

Lemma SFadd_bounds (A C : Z) (c w : spec_float) :
  0 <= A -> 0 <= C -> A + C < 2 ^ 53 ->
  SFin A A c -> SFin 0 C w ->
  SFin A (A + C) (SF64add c w).
Proof.
  intros HA HC HAC Hc Hw. unfold SF64add, SFadd.
  destruct c as [sc| | |[|] mc ec]; try contradiction;
    destruct w as [sw| | |[|] mw ew]; try contradiction;
    cbn [SFin] in Hc, Hw.
  - destruct sc, sw; cbn [SFin]; lia.
  - cbn [SFin]. destruct Hw as [He [L U]].
    pose proof (pow2_pos (- ew) ltac:(lia)). split; [lia|]. nia.
  - cbn [SFin]. destruct Hc as [He [L U]].
    pose proof (pow2_pos (- ec) ltac:(lia)). split; [lia|]. nia.
  - destruct Hc as [Hec [Lc Uc]]. destruct Hw as [Hew [Lw Uw]].
    set (ez := Z.min ec ew).
    destruct (shl_align_spec mc ec ez) as [_ Mc].
    destruct (shl_align_spec mw ew ez) as [_ Mw].
    replace (Z.min ec ez) with ez in Mc by lia.
    replace (Z.min ew ez) with ez in Mw by lia.
    cbn [cond_Zopp Z.add binary_normalize].
    apply binary_round_bounds; try lia.
    rewrite Pos2Z.inj_add, Mc, Mw.
    assert (Sc : 2 ^ (- ez) = 2 ^ (- ec) * 2 ^ (ec - ez)).
    { rewrite <- Z.pow_add_r by lia. f_equal. lia. }
    assert (Sw : 2 ^ (- ez) = 2 ^ (- ew) * 2 ^ (ew - ez)).
    { rewrite <- Z.pow_add_r by lia. f_equal. lia. }
    pose proof (pow2_pos (- ec) ltac:(lia)).
    pose proof (pow2_pos (- ew) ltac:(lia)).
    pose proof (pow2_pos (ec - ez) ltac:(lia)).
    pose proof (pow2_pos (ew - ez) ltac:(lia)).
    assert (E1 : Z.pos mc * 2 ^ (ec - ez) = A * 2 ^ (- ez)) by (rewrite Sc; nia).
    assert (E2 : 0 <= Z.pos mw * 2 ^ (ew - ez) <= C * 2 ^ (- ez))
      by (rewrite Sw; nia).
    rewrite E1. lia.
Qed.

Lemma rne_div_bounds (a b L U : Z) :
  0 < b -> L * b <= a <= U * b -> L <= rne_div a b <= U.
Proof.
  intros Hb [Hl Hu]. unfold rne_div.
  assert (Lq : L <= a / b) by (apply Z.div_le_lower_bound; lia).
  destruct (Z.eq_dec a (U * b)) as [E|N].
  - subst a. rewrite Z.div_mul in Lq by lia.
    rewrite Z.mod_mul, Z.div_mul by lia.
    change (2 * 0) with 0. destruct (Z.compare_spec 0 b); lia.
  - assert (Hlt : a < b * U) by (clear Lq; lia).
    pose proof (Z.div_lt_upper_bound a b U Hb Hlt) as Uq.
    generalize dependent (a / b). intros q Lq Uq.
    destruct (2 * (a mod b) ?= b); try destruct (Z.even q); lia.
Qed.

(** The quotient and exponent [SFdiv] hands to the rounding when it divides
    the integer [p] by ten. *)
Lemma SFdiv_core_10 (p : positive) :
  let '(q, e, l) := SFdiv_core_binary prec emax (Z.pos p) 0 10 0 in
  e <= 0 /\ q = (Z.pos p * 2 ^ (- e)) / 10 /\
  ((Z.pos p * 2 ^ (- e)) mod 10 = 0 -> l = loc_Exact) /\
  0 < q /\ e <= fexp prec emax (Zdigits2 q + e).
Proof.
  unfold SFdiv_core_binary.
  set (d := Zdigits2 (Z.pos p)).
  change (Zdigits2 10) with 4.
  set (e := Z.min (fexp prec emax (d + 0 - (4 + 0))) (0 - 0)).
  set (s := 0 - 0 - e).
  pose proof (Zdigits2_pos (Z.pos p) ltac:(lia)) as Hd. fold d in Hd.
  assert (He : e <= 0) by (unfold e; lia).
  assert (Hs : s = - e) by (unfold s; lia).
  set (m' := match s with
             | 0 => Z.pos p
             | Z.pos _ => Z.shiftl (Z.pos p) s
             | Z.neg _ => 0
             end).
  assert (Hm' : m' = Z.pos p * 2 ^ (- e)).
  { unfold m'. rewrite <- Hs. destruct s as [|k|k] eqn:Es.
    - simpl. lia.
    - rewrite Z.shiftl_mul_pow2 by lia. reflexivity.
    - lia. }
  assert (Hq : Z.div_eucl m' 10 = (m' / 10, m' mod 10)).
  { unfold Z.div, Z.modulo. destruct (Z.div_eucl m' 10). reflexivity. }
  rewrite Hq, Hm'.
  split; [exact He|]. split; [reflexivity|]. split.
  { intros ->. reflexivity. }
  assert (Hds : 57 <= d + - e).
  { unfold e, fexp, SpecFloat.emin, prec, emax. lia. }
  pose proof (Zdigits2_bounds (Z.pos p) ltac:(lia)) as [L _]. fold d in L.
  pose proof (pow2_pos (- e) ltac:(lia)) as Pe.
  assert (Hlow : 2 ^ (d + - e - 5) <= Z.pos p * 2 ^ (- e) / 10).
  { apply Z.div_le_lower_bound; [lia|].
    assert (S1 : 2 ^ (d - 1) * 2 ^ (- e) = 2 ^ 4 * 2 ^ (d + - e - 5)).
    { rewrite <- !Z.pow_add_r by lia. f_equal. lia. }
    change (2 ^ 4) with 16 in S1.
    pose proof (pow2_pos (d + - e - 5) ltac:(lia)). nia. }
  pose proof (pow2_pos (d + - e - 5) ltac:(lia)) as Pq.
  split; [lia|].
  pose proof (Zdigits2_ge (Z.pos p * 2 ^ (- e) / 10) (d + - e - 4) ltac:(lia)) as G.
  replace (d + - e - 4 - 1) with (d + - e - 5) in G by lia.
  specialize (G Hlow).
  apply Z.le_trans with (fexp prec emax (d + 0 - (4 + 0))); [unfold e; lia|].
  apply fexp_mono. lia.
Qed.

Lemma SF64round1_valid (x : spec_float) :
  valid_binary x = true -> valid_binary (SF64round1 x) = true.
Proof.
  intros V. destruct x as [s|s| |s m e]; try exact V.
  unfold SF64round1. destruct (tenths m e) as [|p|p]; try reflexivity.
  unfold SF64div, SFdiv.
  pose proof (SFdiv_core_10 p) as H.
  destruct (SFdiv_core_binary prec emax (Z.pos p) 0 10 0) as [[q e'] l].
  destruct H as [_ [_ [_ [Hq He]]]].
  apply binary_round_aux_valid; assumption.
Qed.

Lemma SF64round1_bounds (A B : Z) (x : spec_float) :
  0 <= A -> B < 2 ^ 53 -> SFin A B x -> SFin A B (SF64round1 x).
Proof.
  intros HA HB Hx. destruct x as [s|s| |[|] m e]; try contradiction;
    [exact Hx|].
  cbn [SFin] in Hx. destruct Hx as [He [L U]].
  pose proof (pow2_pos (- e) ltac:(lia)) as Pe.
  unfold SF64round1, tenths.
  replace (Z.max e 0) with 0 by lia. replace (Z.max (- e) 0) with (- e) by lia.
  change (2 ^ 0) with 1. rewrite Z.mul_1_r.
  pose proof (rne_div_bounds (10 * Z.pos m) (2 ^ (- e)) (10 * A) (10 * B)
                Pe ltac:(lia)) as Hn.
  destruct (rne_div (10 * Z.pos m) (2 ^ (- e))) as [|p|p]; cbn [SFin].
  - nia.
  - unfold SF64div, SFdiv.
    pose proof (SFdiv_core_10 p) as H.
    destruct (SFdiv_core_binary prec emax (Z.pos p) 0 10 0) as [[q e'] l].
    destruct H as [He' [Hq [Hl [Hqpos _]]]].
    pose proof (pow2_pos (- e') ltac:(lia)) as Pe'.
    pose proof (binary_round_aux_bounds false q e' l A B) as R.
    cbn [xorb].
    assert (Lq : A * 2 ^ (- e') <= q).
    { rewrite Hq. apply Z.div_le_lower_bound; [lia|]. nia. }
    assert (Uq : q < B * 2 ^ (- e') \/ l = loc_Exact /\ q = B * 2 ^ (- e')).
    { destruct (Z.eq_dec (Z.pos p) (10 * B)) as [E|N].
      - right. rewrite E in Hl, Hq.
        replace (10 * B * 2 ^ (- e')) with (B * 2 ^ (- e') * 10) in Hl, Hq by lia.
        rewrite Z.div_mul in Hq by lia. split; [|exact Hq].
        apply Hl. apply Z.mod_mul. lia.
      - left. rewrite Hq. apply Z.div_lt_upper_bound; [lia|]. nia. }
    specialize (R ltac:(lia) He' HA HB Lq Uq).
    destruct (binary_round_aux prec emax false q e' l) as [s'|s'| |s' m' e''];
      cbn [SFin]; try contradiction.
    + destruct R as [_ ->]. nia.
    + destruct R as [-> R]. exact R.
  - lia.
Qed.

(** ** [random.uniform] and [round] on the sensor ranges *)

Lemma SFunit_random (u : float) :
  (0 <=? u)%float = true -> (u <? 1)%float = true -> SFunit (Prim2SF u).
Proof.
  rewrite leb_spec, ltb_spec. intros H0 H1.
  apply SFunit_of_compare; [apply Prim2SF_valid | exact H0 | exact H1].
Qed.

Lemma leb_SFin (A B B' C : Z) (x y : float) :
  SFin A B (Prim2SF x) -> SFin B' C (Prim2SF y) -> B <= B' ->
  (x <=? y)%float = true.
Proof.
  intros Hx Hy HB. rewrite leb_spec.
  apply (SFleb_SFin A B B' C); auto using Prim2SF_valid.
Qed.

Lemma round1_SFin (A B : Z) (x : float) :
  0 <= A -> B < 2 ^ 53 -> SFin A B (Prim2SF x) -> SFin A B (Prim2SF (round1 x)).
Proof.
  intros HA HB Hx. unfold round1.
  rewrite Prim2SF_SF2Prim by (apply SF64round1_valid, Prim2SF_valid).
  apply SF64round1_bounds; assumption.
Qed.

(** [a + (b - a) * u] lies in [[a, b]] for a draw [u] of [[0, 1)]. *)
Lemma uniform_SFin (a b : Z) (u : float) :
  0 <= a <= b -> b < 2 ^ 53 ->
  (0 <=? u)%float = true -> (u <? 1)%float = true ->
  SFin a b (Prim2SF (float_of_int a + float_of_int (b - a) * u)%float).
Proof.
  intros Hab Hb H0 H1.
  rewrite add_spec, mul_spec.
  replace b with (a + (b - a)) at 1 by lia.
  apply SFadd_bounds; try lia.
  - apply float_of_int_exact. lia.
  - apply SFmul_bounds; [lia | apply float_of_int_exact; lia |].
    apply SFunit_random; assumption.
Qed.

(** * Further properties *)

(** ** Perception *)

Lemma rng_ok_drop (k : nat) (g : rng) : rng_ok g -> rng_ok (drop_draws k g).
Proof. intros H n. apply H. Qed.

(** A draw of [random.uniform(a, b)] rounded to one decimal stays in
    [[a, b]]. *)
Lemma uniform_round1_in_range (prm : params) (g : rng) :
  0 <= p_min prm <= p_max prm -> p_max prm < 2 ^ 53 -> rng_ok g ->
  in_range prm (round1 (fst (uniform (p_min prm) (p_max prm) g))) = true.
Proof.
  intros Hab Hb Hg. unfold in_range, uniform, random. cbn [fst].
  destruct (Hg O) as [H0 H1].
  pose proof (uniform_SFin (p_min prm) (p_max prm) (g O) Hab Hb H0 H1) as Hv.
  apply round1_SFin in Hv; [|lia|lia].
  apply andb_true_iff. split.
  - apply (leb_SFin (p_min prm) (p_min prm) (p_min prm) (p_max prm));
      [apply float_of_int_exact; lia | exact Hv | lia].
  - apply (leb_SFin (p_min prm) (p_max prm) (p_max prm) (p_max prm));
      [exact Hv | apply float_of_int_exact; lia | lia].
Qed.

Lemma read_entries_cons (t : instant) (k : SensorType) (prm : params)
  (l : list (SensorType * params)) (g : rng) :
  read_entries t ((k, prm) :: l) g =
  ({| r_sensor_type := sensor_name k;
      r_value := round1 (fst (uniform (p_min prm) (p_max prm) g));
      r_unit := p_unit prm;
      r_timestamp := t |}
   :: fst (read_entries t l (drop_draws 1 g)),
   snd (read_entries t l (drop_draws 1 g))).
Proof.
  cbn [read_entries]. unfold uniform, random.
  change (fun n => g (S n)) with (drop_draws 1 g).
  destruct (read_entries t l (drop_draws 1 g)). reflexivity.
Qed.

(** The names, units and timestamps of the comprehension, and the draws it
    consumes. *)
Lemma read_entries_shape (t : instant) (l : list (SensorType * params))
  (g : rng) :
  map r_sensor_type (fst (read_entries t l g)) =
    map (fun e => sensor_name (fst e)) l /\
  map r_unit (fst (read_entries t l g)) = map (fun e => p_unit (snd e)) l /\
  Forall (fun d => r_timestamp d = t) (fst (read_entries t l g)) /\
  forall n, snd (read_entries t l g) n = g (List.length l + n)%nat.
Proof.
  revert g. induction l as [|[k prm] l IH]; intros g.
  - simpl. repeat split; auto.
  - rewrite read_entries_cons. cbn [fst snd map List.length].
    destruct (IH (drop_draws 1 g)) as [I1 [I2 [I3 I4]]].
    rewrite I1, I2. repeat split; auto.
Qed.

(** The comprehension on any catalog with bounds [0 <= min <= max < 2^53]:
    each reading has its entry's name and unit and a value in its range. *)
Lemma read_entries_ok (t : instant) (l : list (SensorType * params))
  (g : rng) :
  Forall (fun e : SensorType * params =>
            0 <= p_min (snd e) <= p_max (snd e) /\ p_max (snd e) < 2 ^ 53) l ->
  rng_ok g ->
  Forall2 (fun (e : SensorType * params) d =>
             r_sensor_type d = sensor_name (fst e) /\
             r_unit d = p_unit (snd e) /\
             in_range (snd e) (r_value d) = true)
    l (fst (read_entries t l g)).
Proof.
  intros Hl. revert g. induction Hl as [|[k prm] l [Hab Hb] Hl IH]; intros g Hg.
  - constructor.
  - rewrite read_entries_cons. cbn [fst]. constructor.
    + cbn [r_sensor_type r_unit r_value fst snd].
      split; [reflexivity|]. split; [reflexivity|].
      apply uniform_round1_in_range; assumption.
    + apply IH, rng_ok_drop, Hg.
Qed.

Lemma SENSORS_bounds :
  Forall (fun e : SensorType * params =>
            0 <= p_min (snd e) <= p_max (snd e) /\ p_max (snd e) < 2 ^ 53)
    SENSORS.
Proof. repeat constructor; cbn; lia. Qed.

Lemma read_sensors_unfold (c : clock) (g : rng) :
  read_sensors c g =
  (fst (read_entries (c O) SENSORS g), (fun n => c (S n)),
   snd (read_entries (c O) SENSORS g)).
Proof.
  unfold read_sensors, now.
  destruct (read_entries (c O) SENSORS g). reflexivity.
Qed.

Lemma readings_of_names (k : SensorType) (data : list reading) :
  List.length (readings_of k data) =
  List.length (filter (fun n => String.eqb n (sensor_name k))
                 (map r_sensor_type data)).
Proof.
  unfold readings_of. induction data as [|d data IH]; [reflexivity|].
  cbn [filter map].
  destruct (String.eqb (r_sensor_type d) (sensor_name k)); cbn [List.length];
    rewrite IH; reflexivity.
Qed.

Lemma has_reading_names (k : SensorType) (data : list reading) :
  has_reading k data =
  existsb (fun n => String.eqb n (sensor_name k)) (map r_sensor_type data).
Proof.
  unfold has_reading. induction data as [|d data IH]; [reflexivity|].
  cbn [existsb map]. rewrite IH. reflexivity.
Qed.

(** X1: whatever the clock and the random source, [read_sensors] returns
    five readings, one per catalog entry in catalog order (so exactly one
    per sensor kind), each with its entry's unit, all stamped with the one
    instant the call read; it reads the clock once and draws five numbers. *)
Theorem read_sensors_shape (c : clock) (g : rng) :
  let batch := fst (fst (read_sensors c g)) in
  map r_sensor_type batch =
    ["TEMPERATURE"; "SOIL_MOISTURE"; "LIGHT_INTENSITY"; "CO2_LEVEL";
     "HUMIDITY"] /\
  map r_unit batch = map (fun e => p_unit (snd e)) SENSORS /\
  Forall (fun d => r_timestamp d = c O) batch /\
  (forall k, List.length (readings_of k batch) = 1%nat) /\
  (forall n, snd (fst (read_sensors c g)) n = c (S n)) /\
  (forall n, snd (read_sensors c g) n = g (5 + n)%nat).
Proof.
  cbv zeta. rewrite read_sensors_unfold. cbn [fst snd].
  destruct (read_entries_shape (c O) SENSORS g) as [H1 [H2 [H3 H4]]].
  split; [exact H1|]. split; [exact H2|]. split; [exact H3|].
  split; [|split; [reflexivity | exact H4]].
  intros k. rewrite readings_of_names, H1. destruct k; reflexivity.
Qed.

(** X2: when every [random.random()] lies in [[0, 1)], the batch
    [read_sensors] returns is as the catalog describes it: for each entry
    the reading has its name and unit and a value, after the rounding to one
    decimal, within the entry's bounds, both included. *)
Theorem read_sensors_in_range (c : clock) (g : rng) :
  rng_ok g -> batch_ok (fst (fst (read_sensors c g))).
Proof.
  intros Hg. unfold batch_ok. rewrite read_sensors_unfold. cbn [fst].
  apply read_entries_ok; [exact SENSORS_bounds | exact Hg].
Qed.

Lemma read_sensors_in_range_witness :
  batch_ok
    (fst (fst (read_sensors (fun _ => "2024-01-01T00:00:00") (const_rng 0.5)))).
Proof.
  apply (read_sensors_in_range (fun _ => "2024-01-01T00:00:00") (const_rng 0.5)).
  intros n. split; reflexivity.
Defined.

(** C9: when every [random.random()] lies in [[0, 1)], a batch returned by
    [read_sensors] has as many readings as the catalog has entries and, for
    every sensor kind of the catalog, exactly one reading of that kind; all
    the readings carry the single timestamp the call read, each carries its
    kind's unit, and each value, rounded to one decimal as it is, lies
    within its kind's [[min, max]], both bounds included. *)
Theorem read_sensors_batch (c : clock) (g : rng) :
  rng_ok g ->
  let batch := fst (fst (read_sensors c g)) in
  List.length batch = List.length SENSORS /\
  Forall (fun d => r_timestamp d = c O) batch /\
  forall k prm, In (k, prm) SENSORS ->
    exists d,
      readings_of k batch = [d] /\
      r_unit d = p_unit prm /\
      in_range prm (r_value d) = true.
Proof.
  intros Hg. cbv zeta. rewrite read_sensors_unfold. cbn [fst].
  destruct (read_entries_shape (c O) SENSORS g) as [_ [_ [Ht _]]].
  split; [|split; [exact Ht|]].
  - unfold SENSORS. rewrite !read_entries_cons. reflexivity.
  - clear Ht. intros k prm Hin. unfold SENSORS in *.
    rewrite !read_entries_cons. cbn [fst snd read_entries].
    cbn [In] in Hin.
    repeat (destruct Hin as [Hin|Hin];
            [ injection Hin as <- <-; eexists;
              split; [reflexivity|]; split; [reflexivity|];
              apply uniform_round1_in_range;
              [cbn; lia | cbn; lia | repeat apply rng_ok_drop; exact Hg]
            | ]).
    contradiction.
Qed.

Lemma read_sensors_batch_witness :
  let batch :=
    fst (fst (read_sensors (fun _ => "2024-01-01T00:00:00") (const_rng 0.5))) in
  List.length batch = 5%nat /\
  Forall (fun d => r_timestamp d = "2024-01-01T00:00:00") batch /\
  forall k prm, In (k, prm) SENSORS ->
    exists d,
      readings_of k batch = [d] /\
      r_unit d = p_unit prm /\
      in_range prm (r_value d) = true.
Proof.
  apply (read_sensors_batch (fun _ => "2024-01-01T00:00:00") (const_rng 0.5)).
  intros n. split; reflexivity.
Defined.

(** ** Edge analysis, further *)

(** The stress draw [random.uniform(0, 1)] lies in [[0, 1]]. *)
Lemma uniform_0_1_range (g : rng) :
  rng_ok g ->
  (0 <=? fst (uniform 0 1 g))%float = true /\
  (fst (uniform 0 1 g) <=? 1)%float = true.
Proof.
  intros Hg. unfold uniform, random. cbn [fst].
  destruct (Hg O) as [H0 H1].
  pose proof (uniform_SFin 0 1 (g O) ltac:(lia) ltac:(lia) H0 H1) as Hv.
  change (1 - 0) with 1 in Hv. split.
  - change 0%float with (float_of_int 0) at 1.
    apply (leb_SFin 0 0 0 1); [apply float_of_int_exact; lia | exact Hv | lia].
  - change 1%float with (float_of_int 1).
    apply (leb_SFin 0 1 1 1); [exact Hv | apply float_of_int_exact; lia | lia].
Qed.

(** X3: when every [random.random()] lies in [[0, 1)], the crop-stress risk
    of an analysis result lies in [[0, 1]]; the analysis has drawn exactly
    one number, and the draws left are again in [[0, 1)]. *)
Theorem analyze_data_stress_range (data : list reading) (g : rng)
  (pd : processed) (g' : rng) :
  rng_ok g ->
  analyze_data data g = Ok (pd, g') ->
  (0 <=? crop_stress_risk (p_predictions pd))%float = true /\
  (crop_stress_risk (p_predictions pd) <=? 1)%float = true /\
  g' = drop_draws 1 g /\ rng_ok g'.
Proof.
  intros Hg H. destruct (analyze_data_inv _ _ _ _ H) as [t [h [m [Ht [Hh Hm]]]]].
  rewrite (analyze_data_Ok data g t h m Ht Hh Hm) in H.
  injection H as <- <-. cbn [p_predictions crop_stress_risk].
  destruct (uniform_0_1_range g Hg) as [H0 H1].
  split; [exact H0|]. split; [exact H1|].
  split; [reflexivity | apply (rng_ok_drop 1 g Hg)].
Qed.

Lemma analyze_data_stress_range_witness :
  exists pd g',
    analyze_data
      [mk_reading TEMPERATURE 25; mk_reading HUMIDITY 60;
       mk_reading SOIL_MOISTURE 50] (const_rng 0.5) = Ok (pd, g') /\
    (0 <=? crop_stress_risk (p_predictions pd))%float = true /\
    (crop_stress_risk (p_predictions pd) <=? 1)%float = true.
Proof.
  eexists. eexists. split; [reflexivity|].
  refine (let H := analyze_data_stress_range
                     [mk_reading TEMPERATURE 25; mk_reading HUMIDITY 60;
                      mk_reading SOIL_MOISTURE 50] (const_rng 0.5) _ _ _ eq_refl
          in conj (proj1 H) (proj1 (proj2 H))).
  intros n. split; reflexivity.
Defined.

Lemma next_value_app (name : string) (data extra : list reading) (v : float) :
  next_value name data = Ok v -> next_value name (data ++ extra) = Ok v.
Proof.
  unfold next_value. induction data as [|d data IH]; cbn [find app].
  - discriminate.
  - destruct (String.eqb (r_sensor_type d) name); auto.
Qed.

(** X4: [analyze_data] reads the first reading of each kind and nothing
    after it: readings added behind a batch it accepts, duplicates of a kind
    included, change neither the metrics nor the predictions nor the draw;
    the result carries the longer batch as its raw data. *)
Theorem analyze_data_first_reading (data extra : list reading) (g : rng)
  (pd : processed) (g' : rng) :
  analyze_data data g = Ok (pd, g') ->
  exists pd',
    analyze_data (data ++ extra) g = Ok (pd', g') /\
    p_metrics pd' = p_metrics pd /\
    p_predictions pd' = p_predictions pd /\
    raw_data pd' = data ++ extra.
Proof.
  intros H. destruct (analyze_data_inv _ _ _ _ H) as [t [h [m [Ht [Hh Hm]]]]].
  rewrite (analyze_data_Ok data g t h m Ht Hh Hm) in H.
  injection H as <- <-.
  eexists. split.
  - apply (analyze_data_Ok (data ++ extra) g t h m);
      apply next_value_app; assumption.
  - repeat split.
Qed.

Lemma analyze_data_first_reading_witness :
  exists pd pd' g',
    analyze_data
      [mk_reading TEMPERATURE 25; mk_reading HUMIDITY 60;
       mk_reading SOIL_MOISTURE 50] (const_rng 0.5) = Ok (pd, g') /\
    analyze_data
      ([mk_reading TEMPERATURE 25; mk_reading HUMIDITY 60;
        mk_reading SOIL_MOISTURE 50] ++
       [mk_reading TEMPERATURE 29; mk_reading HUMIDITY 41])
      (const_rng 0.5) = Ok (pd', g') /\
    p_metrics pd' = p_metrics pd /\
    dew_point (p_metrics pd') = 17%float.
Proof.
  destruct (analyze_data_first_reading
              [mk_reading TEMPERATURE 25; mk_reading HUMIDITY 60;
               mk_reading SOIL_MOISTURE 50]
              [mk_reading TEMPERATURE 29; mk_reading HUMIDITY 41]
              (const_rng 0.5) _ _ eq_refl) as [pd' [H1 [H2 [H3 H4]]]].
  eexists. exists pd'. eexists. split; [reflexivity|].
  split; [exact H1|]. split; [exact H2|]. rewrite H2. reflexivity.
Defined.

(** ** Actuation, further *)

Lemma control_actuators_get_fires (pd : processed) (st : actuator_state)
  (k : ActuatorType) :
  dict_get k (fst (control_actuators pd st)) =
  if fires k pd then Some true else dict_get k st.
Proof. rewrite control_actuators_get. destruct k; reflexivity. Qed.

Lemma control_all_get (pds : list processed) (st : actuator_state)
  (k : ActuatorType) :
  dict_get k (control_all pds st) =
  if existsb (fires k) pds then Some true else dict_get k st.
Proof.
  unfold control_all. revert st.
  induction pds as [|pd pds IH]; intros st; cbn [fold_left existsb].
  - reflexivity.
  - rewrite IH, control_actuators_get_fires.
    destruct (fires k pd); cbn [orb]; [|reflexivity].
    destruct (existsb (fires k) pds); reflexivity.
Qed.

(** X5: over any sequence of cycles from the initial state, an actuator is
    on exactly when the rule of that actuator fired on one of the results so
    far; an actuator whose rule never fired is still off.  The state is the
    disjunction of the past decisions: nothing resets it. *)
Theorem control_all_from_init (pds : list processed) (k : ActuatorType) :
  dict_get k (control_all pds actuators_init) = Some (existsb (fires k) pds).
Proof.
  rewrite control_all_get.
  destruct (existsb (fires k) pds); [reflexivity|]. destruct k; reflexivity.
Qed.

Lemma dict_set_keys (k : ActuatorType) (v : bool) (d : actuator_state) :
  In k (map fst d) -> map fst (dict_set k v d) = map fst d.
Proof.
  induction d as [|[k' v'] d IH]; cbn [map fst dict_set In]; [tauto|].
  intros H. destruct (ActuatorType_eqb k k') eqn:E; cbn [map fst].
  - reflexivity.
  - f_equal. apply IH. destruct H as [H|H]; [|exact H].
    subst k'. rewrite ActuatorType_eqb_refl in E. discriminate.
Qed.

Lemma rule_keys (c : bool) (k : ActuatorType) (d : actuator_state) :
  In k (map fst d) ->
  map fst (if c then dict_set k true d else d) = map fst d.
Proof. destruct c; [apply dict_set_keys | reflexivity]. Qed.

Lemma control_actuators_keys (pd : processed) (st : actuator_state) :
  (forall k, In k (map fst st)) ->
  map fst (fst (control_actuators pd st)) = map fst st.
Proof.
  intros H. rewrite control_actuators_state. cbv zeta.
  assert (R : forall c k d, map fst d = map fst st ->
                map fst (if c : bool then dict_set k true d else d) = map fst st).
  { intros c k d E. rewrite rule_keys; [exact E|]. rewrite E. apply H. }
  destruct (next_value (sensor_name CO2_LEVEL) (raw_data pd));
    repeat apply R; reflexivity.
Qed.

Lemma on_off_line (st : actuator_state) :
  map fst st = all_actuators ->
  actuators_line st = Actuators (map (on_off st) all_actuators).
Proof.
  unfold actuators_line, all_actuators. intros H.
  destruct st as [|[k1 [|]] [|[k2 [|]] [|[k3 [|]] [|[k4 [|]] [|x st]]]]];
    try discriminate; injection H as -> -> -> ->; reflexivity.
Qed.

(** X6: on a state whose keys are the four actuators in enum order, as the
    initial one, [control_actuators] adds, removes and moves no key,
    whether it returns or raises, and when it returns it has printed one
    line: the four actuators in enum order, each ON when it is true in the
    state the call leaves. *)
Theorem control_actuators_line (pd : processed) (st : actuator_state) :
  map fst st = all_actuators ->
  map fst (fst (control_actuators pd st)) = all_actuators /\
  (has_reading CO2_LEVEL (raw_data pd) = true ->
   snd (control_actuators pd st) =
   Ok [Actuators (map (on_off (fst (control_actuators pd st))) all_actuators)]).
Proof.
  intros H.
  assert (K : map fst (fst (control_actuators pd st)) = all_actuators).
  { rewrite control_actuators_keys; [exact H|].
    intros k. rewrite H. destruct k; cbn; auto. }
  split; [exact K|]. intros Hco2.
  rewrite <- (on_off_line _ K). unfold control_actuators.
  destruct (next_value_has _ _ Hco2) as [co2 ->]. reflexivity.
Qed.

Lemma control_actuators_line_witness :
  let pd := mk_processed [mk_reading CO2_LEVEL 350] 10 31 0.9 in
  map fst (fst (control_actuators pd actuators_init)) = all_actuators /\
  snd (control_actuators pd actuators_init) =
  Ok [Actuators [("IRRIGATION", "ON"); ("COOLING", "ON");
                 ("VENTILATION", "OFF"); ("FERTILIZER_DOSER", "ON")]].
Proof.
  cbv zeta.
  pose proof (control_actuators_line
                (mk_processed [mk_reading CO2_LEVEL 350] 10 31 0.9)
                actuators_init eq_refl) as [H1 H2].
  split; [exact H1|]. rewrite (H2 eq_refl). reflexivity.
Defined.

(** ** The loop body *)

(** [analyze_data] returns exactly on the batches with the three kinds it
    looks up. *)
Lemma analyze_data_cases (data : list reading) (g : rng) :
  if has_reading TEMPERATURE data && has_reading HUMIDITY data
     && has_reading SOIL_MOISTURE data
  then exists pd g', analyze_data data g = Ok (pd, g')
  else analyze_data data g = Raise StopIteration.
Proof.
  destruct (has_reading TEMPERATURE data) eqn:Ht; cbn [andb].
  2:{ unfold analyze_data. rewrite (next_value_has_not _ _ Ht). reflexivity. }
  destruct (has_reading HUMIDITY data) eqn:Hh; cbn [andb].
  2:{ unfold analyze_data. destruct (next_value_has _ _ Ht) as [t ->].
      rewrite (next_value_has_not _ _ Hh). reflexivity. }
  destruct (has_reading SOIL_MOISTURE data) eqn:Hm.
  2:{ unfold analyze_data. destruct (next_value_has _ _ Ht) as [t ->].
      destruct (next_value_has _ _ Hh) as [h ->].
      rewrite (next_value_has_not _ _ Hm). reflexivity. }
  destruct (next_value_has _ _ Ht) as [t Ht'].
  destruct (next_value_has _ _ Hh) as [h Hh'].
  destruct (next_value_has _ _ Hm) as [m Hm'].
  eexists. eexists. apply (analyze_data_Ok data g t h m Ht' Hh' Hm').
Qed.

Lemma business_report_fst (pd : processed) (history : list processed) :
  fst (business_report pd history) = history ++ [pd].
Proof.
  unfold business_report.
  destruct (Z.of_nat (List.length (history ++ [pd])) mod 5 =? 0); reflexivity.
Qed.

Lemma cloud_sync_fst (pd : processed) (local_db : list processed) :
  fst (cloud_sync pd local_db) = local_db ++ [pd].
Proof. rewrite cloud_sync_spec. reflexivity. Qed.

(** What [stages] leaves in the world, by the stage that ended it.  The
    publication comes first and is never undone. *)
Lemma stages_world (data : list reading) (w : world) :
  let w' := fst (stages data w) in
  w_published w' = w_published w ++ [("iot/agriculture/data", data)] /\
  w_clock w' = w_clock w /\
  match analyze_data data (w_rng w) with
  | Raise e =>
      snd (stages data w) = Raise e /\
      w_actuators w' = w_actuators w /\ w_history w' = w_history w /\
      w_local_db w' = w_local_db w /\ w_rng w' = w_rng w
  | Ok (pd, g') =>
      w_rng w' = g' /\
      w_actuators w' = fst (control_actuators pd (w_actuators w)) /\
      match snd (control_actuators pd (w_actuators w)) with
      | Raise e =>
          snd (stages data w) = Raise e /\
          w_history w' = w_history w /\ w_local_db w' = w_local_db w
      | Ok _ =>
          snd (stages data w) = Ok tt /\
          w_history w' = w_history w ++ [pd] /\
          w_local_db w' = w_local_db w ++ [pd]
      end
  end.
Proof.
  cbv zeta. unfold stages.
  change (w_rng (send_mqtt data w)) with (w_rng w).
  destruct (analyze_data data (w_rng w)) as [[pd g']|e].
  2:{ cbn. auto 10. }
  cbn [w_actuators print set_rng send_mqtt].
  destruct (control_actuators pd (w_actuators w)) as [a [out|e]].
  2:{ cbn. auto 10. }
  pose proof (business_report_fst pd (w_history w)) as Hb.
  pose proof (cloud_sync_fst pd (w_local_db w)) as Hc.
  cbn [w_history w_local_db print set_actuators set_history set_rng send_mqtt].
  destruct (business_report pd (w_history w)) as [h out5].
  cbn [w_history w_local_db print set_actuators set_history set_rng send_mqtt].
  destruct (cloud_sync pd (w_local_db w)) as [db out6].
  cbn in Hb, Hc. subst h db. cbn. auto 10.
Qed.

Lemma control_actuators_snd (pd : processed) (st : actuator_state) :
  snd (control_actuators pd st) =
  match next_value (sensor_name CO2_LEVEL) (raw_data pd) with
  | Ok _ => Ok [actuators_line (fst (control_actuators pd st))]
  | Raise e => Raise e
  end.
Proof.
  unfold control_actuators.
  destruct (next_value (sensor_name CO2_LEVEL) (raw_data pd)); reflexivity.
Qed.

Lemma analyze_data_raw (data : list reading) (g : rng) (pd : processed)
  (g' : rng) :
  analyze_data data g = Ok (pd, g') -> raw_data pd = data /\ g' = drop_draws 1 g.
Proof.
  intros H. destruct (analyze_data_inv _ _ _ _ H) as [t [h [m [Ht [Hh Hm]]]]].
  rewrite (analyze_data_Ok data g t h m Ht Hh Hm) in H.
  injection H as <- <-. split; reflexivity.
Qed.

(** X7: whatever the batch, and whether the later stages return or raise,
    the loop body has published the batch once, on the topic
    [iot/agriculture/data], behind what was published before, and has not
    read the clock. *)
Theorem stages_publishes (data : list reading) (w : world) :
  w_published (fst (stages data w)) =
    w_published w ++ [("iot/agriculture/data", data)] /\
  w_clock (fst (stages data w)) = w_clock w.
Proof.
  pose proof (stages_world data w) as [H1 [H2 _]]. split; assumption.
Qed.

(** X8: on every batch with Temperature, Humidity and SoilMoisture readings
    and no Co2Level reading the loop body ends with [StopIteration] in the
    decision stage: the analysis has run and drawn its number, the first
    three rules have been applied to the actuators, and the history and the
    buffer are not written. *)
Theorem stages_decision_failure (data : list reading) (w : world) :
  has_reading TEMPERATURE data = true ->
  has_reading HUMIDITY data = true ->
  has_reading SOIL_MOISTURE data = true ->
  has_reading CO2_LEVEL data = false ->
  exists pd,
    analyze_data data (w_rng w) = Ok (pd, drop_draws 1 (w_rng w)) /\
    snd (stages data w) = Raise StopIteration /\
    w_actuators (fst (stages data w)) =
      fst (control_actuators pd (w_actuators w)) /\
    (forall k,
       dict_get k (w_actuators (fst (stages data w))) =
       if fires k pd then Some true else dict_get k (w_actuators w)) /\
    fires FERTILIZER_DOSER pd = false /\
    w_rng (fst (stages data w)) = drop_draws 1 (w_rng w) /\
    w_history (fst (stages data w)) = w_history w /\
    w_local_db (fst (stages data w)) = w_local_db w.
Proof.
  intros Ht Hh Hm Hc.
  pose proof (analyze_data_cases data (w_rng w)) as HA.
  rewrite Ht, Hh, Hm in HA. cbn [andb] in HA. destruct HA as [pd [g' HA]].
  destruct (analyze_data_raw _ _ _ _ HA) as [Hraw ->].
  pose proof (stages_world data w) as [_ [_ HS]]. cbv zeta in HS.
  rewrite HA in HS. destruct HS as [Hrng [Hact HS]].
  rewrite control_actuators_snd, Hraw, (next_value_has_not _ _ Hc) in HS.
  destruct HS as [H1 [H2 H3]].
  exists pd. repeat split; try assumption.
  - intros k. rewrite Hact. apply control_actuators_get_fires.
  - unfold fires. rewrite Hraw, (next_value_has_not _ _ Hc). reflexivity.
Qed.

Lemma stages_decision_failure_witness :
  let w := world_init (const_rng 0.9) (fun _ => "2024-01-01T00:00:00") in
  let batch := [mk_reading TEMPERATURE 30; mk_reading HUMIDITY 80;
                mk_reading SOIL_MOISTURE 50] in
  snd (stages batch w) = Raise StopIteration /\
  dict_get COOLING (w_actuators (fst (stages batch w))) = Some true /\
  w_history (fst (stages batch w)) = [] /\
  w_local_db (fst (stages batch w)) = [].
Proof.
  cbv zeta.
  destruct (stages_decision_failure
              [mk_reading TEMPERATURE 30; mk_reading HUMIDITY 80;
               mk_reading SOIL_MOISTURE 50]
              (world_init (const_rng 0.9) (fun _ => "2024-01-01T00:00:00"))
              eq_refl eq_refl eq_refl eq_refl)
    as [pd [H1 [H2 [H3 [H4 [H5 [H6 [H7 H8]]]]]]]].
  split; [exact H2|]. split; [reflexivity|]. split; [exact H7 | exact H8].
Defined.

(** ** Cycles *)

(** A cycle is the loop body on the batch [read_sensors] returns, in a world
    that differs from the one before by the clock, the draws and the
    printed lines. *)
Lemma cycle_stages (w : world) :
  exists w1,
    cycle w =
      stages (fst (fst (read_sensors (drop_draws 1 (w_clock w)) (w_rng w)))) w1 /\
    w_actuators w1 = w_actuators w /\ w_history w1 = w_history w /\
    w_local_db w1 = w_local_db w /\ w_published w1 = w_published w /\
    w_rng w1 = snd (read_sensors (drop_draws 1 (w_clock w)) (w_rng w)) /\
    w_clock w1 = snd (fst (read_sensors (drop_draws 1 (w_clock w)) (w_rng w))) /\
    w_stdout w1 =
      (w_stdout w ++ [CycleRule; CycleAt (w_clock w O)]) ++
      [SensorData
         (map (fun d => (r_sensor_type d, r_value d, r_unit d))
            (fst (fst (read_sensors (drop_draws 1 (w_clock w)) (w_rng w)))))].
Proof.
  unfold cycle, now.
  cbn [w_clock w_rng print set_clock].
  change (fun n => w_clock w (S n)) with (drop_draws 1 (w_clock w)).
  destruct (read_sensors (drop_draws 1 (w_clock w)) (w_rng w)) as [[b c2] g1].
  eexists. split; [reflexivity|]. cbn. auto 10.
Qed.

(** A batch of [read_sensors] has a reading of every kind. *)
Lemma read_sensors_has (c : clock) (g : rng) (k : SensorType) :
  has_reading k (fst (fst (read_sensors c g))) = true.
Proof.
  rewrite has_reading_names, read_sensors_unfold. cbn [fst].
  destruct (read_entries_shape (c O) SENSORS g) as [H1 _].
  rewrite H1. destruct k; reflexivity.
Qed.

(** One cycle: it returns, and what it leaves. *)
Lemma cycle_Ok (w : world) :
  exists pd,
    snd (cycle w) = Ok tt /\
    raw_data pd = fst (fst (read_sensors (drop_draws 1 (w_clock w)) (w_rng w))) /\
    crop_stress_risk (p_predictions pd) =
      fst (uniform 0 1 (drop_draws 5 (w_rng w))) /\
    w_actuators (fst (cycle w)) = fst (control_actuators pd (w_actuators w)) /\
    w_history (fst (cycle w)) = w_history w ++ [pd] /\
    w_local_db (fst (cycle w)) = w_local_db w ++ [pd] /\
    w_published (fst (cycle w)) =
      w_published w ++ [("iot/agriculture/data", raw_data pd)] /\
    (forall n, w_rng (fst (cycle w)) n = w_rng w (6 + n)%nat) /\
    (forall n, w_clock (fst (cycle w)) n = w_clock w (2 + n)%nat).
Proof.
  destruct (cycle_stages w) as [w1 [E [Ha [Hh [Hl [Hp [Hr [Hc _]]]]]]]].
  set (c := drop_draws 1 (w_clock w)) in *. set (g := w_rng w) in *.
  set (batch := fst (fst (read_sensors c g))) in *.
  assert (Sc : forall n, snd (fst (read_sensors c g)) n = c (S n))
    by (intros n; rewrite read_sensors_unfold; reflexivity).
  assert (Sg : forall n, snd (read_sensors c g) n = g (5 + n)%nat)
    by (intros n; rewrite read_sensors_unfold;
        apply (read_entries_shape (c O) SENSORS g)).
  pose proof (analyze_data_cases batch (w_rng w1)) as HA.
  unfold batch in HA at 1 2 3.
  rewrite !read_sensors_has in HA.
  cbn [andb] in HA. destruct HA as [pd [g' HA]].
  destruct (analyze_data_inv _ _ _ _ HA) as [t [h [m [Ht [Hhu Hm]]]]].
  pose proof HA as HA'.
  rewrite (analyze_data_Ok batch (w_rng w1) t h m Ht Hhu Hm) in HA'.
  injection HA' as Epd Eg.
  destruct (analyze_data_raw _ _ _ _ HA) as [Hraw _].
  pose proof (stages_world batch w1) as [P1 [P2 HS]]. cbv zeta in HS.
  rewrite HA in HS. destruct HS as [Hrng [Hact HS]].
  assert (Hco2 : has_reading CO2_LEVEL (raw_data pd) = true).
  { rewrite Hraw. apply read_sensors_has. }
  rewrite control_actuators_snd in HS.
  destruct (next_value_has _ _ Hco2) as [co2 Eco2]. rewrite Eco2 in HS.
  destruct HS as [S1 [S2 S3]].
  rewrite E. exists pd.
  split; [exact S1|]. split; [exact Hraw|].
  split.
  { rewrite <- Epd. cbn [p_predictions crop_stress_risk].
    unfold uniform, random. cbn [fst]. rewrite Hr, (Sg O). reflexivity. }
  split; [rewrite Hact, Ha; reflexivity|].
  split; [rewrite S2, Hh; reflexivity|].
  split; [rewrite S3, Hl; reflexivity|].
  split; [rewrite P1, Hp, Hraw; reflexivity|].
  split.
  - intros n. rewrite Hrng, <- Eg. unfold uniform, random. cbn [snd].
    rewrite Hr, (Sg (S n)). f_equal.
  - intros n. rewrite P2, Hc, (Sc n). reflexivity.
Qed.

Lemma run_S (n : nat) (w : world) : run (S n) w = run n (fst (cycle w)).
Proof.
  cbn [run]. destruct (cycle_Ok w) as [pd [H _]].
  destruct (cycle w) as [w' r]. cbn [fst snd] in *. subst r. reflexivity.
Qed.

Lemma run_Ok (n : nat) (w : world) : snd (run n w) = Ok tt.
Proof.
  revert w. induction n as [|n IH]; intros w; [reflexivity|].
  rewrite run_S. apply IH.
Qed.

(** X9: no lookup of a cycle raises: the batch [read_sensors] builds has
    every kind the analysis and the decision look up, so the loop body
    returns in every pass, for any number of passes; each pass draws six
    random numbers (five readings and the stress risk) and reads the clock
    twice. *)
Theorem cycle_returns (w : world) (n : nat) :
  snd (cycle w) = Ok tt /\
  snd (run n w) = Ok tt /\
  (forall i, w_rng (fst (cycle w)) i = w_rng w (6 + i)%nat) /\
  (forall i, w_clock (fst (cycle w)) i = w_clock w (2 + i)%nat).
Proof.
  destruct (cycle_Ok w) as [pd [H1 [_ [_ [_ [_ [_ [_ [H2 H3]]]]]]]]].
  split; [exact H1|]. split; [apply run_Ok|]. split; assumption.
Qed.

(** What [n] cycles leave: the results [pds] they analysed, one per cycle. *)
Lemma run_inv (n : nat) (w : world) :
  exists pds,
    List.length pds = n /\
    w_history (fst (run n w)) = w_history w ++ pds /\
    w_local_db (fst (run n w)) = w_local_db w ++ pds /\
    w_published (fst (run n w)) =
      w_published w ++
      map (fun pd => ("iot/agriculture/data", raw_data pd)) pds /\
    w_actuators (fst (run n w)) = control_all pds (w_actuators w) /\
    (forall i, w_rng (fst (run n w)) i = w_rng w (6 * n + i)%nat) /\
    (rng_ok (w_rng w) ->
     Forall (fun pd =>
               batch_ok (raw_data pd) /\
               (0 <=? crop_stress_risk (p_predictions pd))%float = true /\
               (crop_stress_risk (p_predictions pd) <=? 1)%float = true) pds).
Proof.
  revert w. induction n as [|n IH]; intros w.
  - exists []. cbn [run fst List.length map control_all fold_left].
    rewrite !app_nil_r. repeat split; auto.
  - rewrite run_S.
    destruct (cycle_Ok w) as [pd [_ [Hraw [Hs [Ha [Hh [Hl [Hp [Hr _]]]]]]]]].
    destruct (IH (fst (cycle w))) as [pds [L [I1 [I2 [I3 [I4 [I5 I6]]]]]]].
    exists (pd :: pds). cbn [List.length map].
    split; [lia|].
    split; [rewrite I1, Hh, <- app_assoc; reflexivity|].
    split; [rewrite I2, Hl, <- app_assoc; reflexivity|].
    split; [rewrite I3, Hp, <- app_assoc; reflexivity|].
    split; [rewrite I4, Ha; reflexivity|].
    split.
    + intros i. rewrite I5, Hr. f_equal. lia.
    + intros Hg. constructor.
      * split.
        -- rewrite Hraw. unfold batch_ok. rewrite read_sensors_unfold.
           cbn [fst]. apply read_entries_ok; [exact SENSORS_bounds | exact Hg].
        -- rewrite Hs. apply uniform_0_1_range, (rng_ok_drop 5), Hg.
      * apply I6. intros i. rewrite Hr. apply Hg.
Qed.

(** X10: after any number of cycles the history and the pending buffer have
    grown by the same results, one per cycle and in order, the batches of
    those results are what was published, one message per cycle on the
    fixed topic, and the actuator state is what the decisions on those
    results made of the state before; nothing is ever removed. *)
Theorem run_appends (n : nat) (w : world) :
  exists pds,
    List.length pds = n /\
    w_history (fst (run n w)) = w_history w ++ pds /\
    w_local_db (fst (run n w)) = w_local_db w ++ pds /\
    w_published (fst (run n w)) =
      w_published w ++
      map (fun pd => ("iot/agriculture/data", raw_data pd)) pds /\
    w_actuators (fst (run n w)) = control_all pds (w_actuators w).
Proof.
  destruct (run_inv n w) as [pds [H1 [H2 [H3 [H4 [H5 _]]]]]].
  exists pds. auto.
Qed.

(** X11: from the initial world, after any number of cycles, the history
    and the pending buffer are the same list, of one entry per cycle, and an
    actuator is on exactly when its rule fired on some entry of the
    history. *)
Theorem run_from_init (n : nat) (g : rng) (c : clock) (k : ActuatorType) :
  let w := fst (run n (world_init g c)) in
  w_history w = w_local_db w /\
  List.length (w_history w) = n /\
  List.length (w_published w) = n /\
  dict_get k (w_actuators w) = Some (existsb (fires k) (w_history w)).
Proof.
  cbv zeta.
  destruct (run_inv n (world_init g c)) as [pds [H1 [H2 [H3 [H4 [H5 _]]]]]].
  cbn [world_init w_history w_local_db w_published w_actuators app] in *.
  rewrite H2, H3, H4, H5, length_map, H1.
  repeat split. rewrite control_all_get.
  destruct (existsb (fires k) pds); [reflexivity|]. destruct k; reflexivity.
Qed.

(** X12: when every [random.random()] lies in [[0, 1)], every entry the
    cycles add to the history was analysed from a batch as the catalog
    describes it, all five values within their bounds, and has a crop-stress
    risk in [[0, 1]]. *)
Theorem run_in_range (n : nat) (g : rng) (c : clock) :
  rng_ok g ->
  Forall (fun pd =>
            batch_ok (raw_data pd) /\
            (0 <=? crop_stress_risk (p_predictions pd))%float = true /\
            (crop_stress_risk (p_predictions pd) <=? 1)%float = true)
    (w_history (fst (run n (world_init g c)))).
Proof.
  intros Hg.
  destruct (run_inv n (world_init g c)) as [pds [_ [H2 [_ [_ [_ [_ H7]]]]]]].
  rewrite H2. cbn [world_init w_history app]. apply H7, Hg.
Qed.

Lemma run_in_range_witness :
  Forall (fun pd =>
            batch_ok (raw_data pd) /\
            (0 <=? crop_stress_risk (p_predictions pd))%float = true /\
            (crop_stress_risk (p_predictions pd) <=? 1)%float = true)
    (w_history
       (fst (run 3 (world_init (const_rng 0.5)
                      (fun _ => "2024-01-01T00:00:00"))))).
Proof.
  apply (run_in_range 3 (const_rng 0.5) (fun _ => "2024-01-01T00:00:00")).
  intros i. split; reflexivity.
Defined.

(** ** Reports over a run *)

Lemma business_report_spec (pd : processed) (history : list processed) :
  business_report pd history =
  (history ++ [pd],
   if Z.of_nat (S (List.length history)) mod 5 =? 0
   then [ BusinessReportHeader;
          TotalDataPoints (Z.of_nat (S (List.length history)));
          RecentStressLevels
            (map (fun d => crop_stress_risk (p_predictions d))
               (last3 (history ++ [pd])));
          RecommendedActions "Check irrigation valves" ]
   else []).
Proof.
  unfold business_report.
  replace (List.length (history ++ [pd])) with (S (List.length history))
    by (rewrite length_app; simpl; lia).
  destruct (Z.of_nat (S (List.length history)) mod 5 =? 0); reflexivity.
Qed.

(** X13: over a sequence of calls of [business_report], call number [i + 1]
    prints the report exactly when the history it leaves has a length that
    is a multiple of 5; the report gives that length and the stress values
    of the last three entries of the history at that moment, the one just
    added included. *)
Theorem business_reports_outputs (pds history : list processed) :
  snd (business_reports pds history) =
  map (fun i : nat =>
         if Z.of_nat (List.length history + S i) mod 5 =? 0
         then [ BusinessReportHeader;
                TotalDataPoints (Z.of_nat (List.length history + S i));
                RecentStressLevels
                  (map (fun d => crop_stress_risk (p_predictions d))
                     (last3 (history ++ firstn (S i) pds)));
                RecommendedActions "Check irrigation valves" ]
         else [])
    (seq 0 (List.length pds)).
Proof.
  revert history. induction pds as [|pd pds IH]; intros history;
    [reflexivity|].
  cbn [business_reports]. rewrite business_report_spec.
  specialize (IH (history ++ [pd])).
  destruct (business_reports pds (history ++ [pd])) as [h' outs].
  cbn [snd] in *. rewrite IH.
  cbn [List.length seq map firstn]. f_equal.
  - rewrite Nat.add_1_r. reflexivity.
  - rewrite <- seq_shift, map_map. apply map_ext. intros i.
    rewrite length_app. cbn [List.length firstn].
    replace (List.length history + 1 + S i)%nat
      with (List.length history + S (S i))%nat by lia.
    rewrite <- app_assoc. reflexivity.
Qed.

(** X14: called on the same results from an empty history and an empty
    buffer, as the cycles do, [business_report] and [cloud_sync] print in
    the same calls: a business report and a cloud-sync line always come
    together. *)
Theorem reports_coincide (pds : list processed) :
  Forall2 (fun report sync : list line => report = [] <-> sync = [])
    (snd (business_reports pds [])) (snd (cloud_syncs pds [])).
Proof.
  assert (G : forall history local_db,
             List.length history = List.length local_db ->
             Forall2 (fun report sync : list line => report = [] <-> sync = [])
               (snd (business_reports pds history))
               (snd (cloud_syncs pds local_db))).
  { induction pds as [|pd pds IH]; intros history local_db L; [constructor|].
    cbn [business_reports cloud_syncs].
    rewrite business_report_spec, cloud_sync_spec, L.
    specialize (IH (history ++ [pd]) (local_db ++ [pd])).
    destruct (business_reports pds (history ++ [pd])) as [h outs].
    destruct (cloud_syncs pds (local_db ++ [pd])) as [db outs'].
    cbn [snd] in *. constructor.
    - destruct (Z.of_nat (S (List.length local_db)) mod 5 =? 0); split;
        intros; try discriminate; reflexivity.
    - apply IH. rewrite !length_app, L. reflexivity. }
  apply G. reflexivity.
Qed.

(** ** What a cycle prints *)

(** The lines the loop body prints, by the stage that ended it. *)
Lemma stages_stdout (data : list reading) (w : world) :
  w_stdout (fst (stages data w)) =
  w_stdout w ++
  LoRaWANSent data ::
  match analyze_data data (w_rng w) with
  | Raise _ => []
  | Ok (pd, _) =>
      EdgeAIOutput (p_predictions pd) ::
      match snd (control_actuators pd (w_actuators w)) with
      | Raise _ => []
      | Ok out =>
          out ++ snd (business_report pd (w_history w)) ++
          snd (cloud_sync pd (w_local_db w))
      end
  end.
Proof.
  unfold stages.
  change (w_rng (send_mqtt data w)) with (w_rng w).
  destruct (analyze_data data (w_rng w)) as [[pd g']|e]; [|reflexivity].
  cbn [w_actuators print set_rng send_mqtt].
  destruct (control_actuators pd (w_actuators w)) as [a [out|e]].
  2:{ cbn. rewrite <- app_assoc. reflexivity. }
  cbn [w_history w_local_db print set_actuators set_history set_rng send_mqtt].
  destruct (business_report pd (w_history w)) as [h out5].
  cbn [w_history w_local_db print set_actuators set_history set_rng send_mqtt].
  destruct (cloud_sync pd (w_local_db w)) as [db out6].
  cbn. rewrite <- !app_assoc. reflexivity.
Qed.

(** X15: the lines of a cycle, in order: the rule and the time, the sensor
    data, the LoRaWAN line, the predictions, the actuators as the decision
    left them, then the four lines of the business report and the
    cloud-sync line in the cycles where they are due. *)
Theorem cycle_prints (w : world) :
  exists pd,
    w_history (fst (cycle w)) = w_history w ++ [pd] /\
    w_stdout (fst (cycle w)) =
    w_stdout w ++
    [ CycleRule; CycleAt (w_clock w O);
      SensorData
        (map (fun d => (r_sensor_type d, r_value d, r_unit d)) (raw_data pd));
      LoRaWANSent (raw_data pd);
      EdgeAIOutput (p_predictions pd);
      actuators_line (w_actuators (fst (cycle w))) ] ++
    snd (business_report pd (w_history w)) ++
    snd (cloud_sync pd (w_local_db w)).
Proof.
  destruct (cycle_Ok w) as [pd [_ [Hraw [_ [Ha [Hh _]]]]]].
  exists pd. split; [exact Hh|].
  destruct (cycle_stages w) as [w1 [E [Ha1 [Hh1 [Hl1 [_ [_ [_ Hout]]]]]]]].
  set (batch := fst (fst (read_sensors (drop_draws 1 (w_clock w)) (w_rng w))))
    in *.
  pose proof (stages_world batch w1) as [_ [_ HS]]. cbv zeta in HS.
  pose proof (stages_stdout batch w1) as HP.
  rewrite <- E in HP, HS.
  destruct (analyze_data batch (w_rng w1)) as [[pd1 g1]|e].
  2:{ destruct HS as [_ [_ [HS _]]]. rewrite Hh, <- Hh1 in HS.
      apply (f_equal (@List.length processed)) in HS.
      rewrite length_app in HS. cbn in HS. lia. }
  destruct HS as [_ [_ HS]]. rewrite control_actuators_snd in HS, HP.
  destruct (next_value (sensor_name CO2_LEVEL) (raw_data pd1)) as [co2|e].
  2:{ destruct HS as [_ [HS _]]. rewrite Hh, <- Hh1 in HS.
      apply (f_equal (@List.length processed)) in HS.
      rewrite length_app in HS. cbn in HS. lia. }
  destruct HS as [_ [HS _]]. rewrite Hh, Hh1 in HS.
  apply app_inv_head in HS. injection HS as <-.
  rewrite HP, Hout, Ha1, Hh1, Hl1, Ha, Hraw, <- !app_assoc. reflexivity.
Qed.
